(** * voice_db/import_studies.py: the study import pipeline

    A shallow embedding of [import_json_studies]: the values [json.load]
    produces, the schema document [study_schema] with the keywords it uses,
    the three duplicate-detection settings, the per-file loop with its
    exception handlers, and the end-of-run reports.

    Two libraries the script calls are not part of the repository:
    [jsonschema.validate] and the pymongo collection.  They are modelled
    here, in [JsonSchema] and [Mongo], for the keywords and the filter
    shapes the script builds, and the pipeline itself is written over the
    two store operations it consumes ([find_one], [insert_one]). *)

From Stdlib Require Import String Ascii List ZArith NArith Bool Lia.
From Stdlib Require Import SpecFloat DecimalString.
Import ListNotations.
Open Scope string_scope.
Open Scope list_scope.
Set Warnings "-register-all".

(* ================================================================== *)
(** ** Python values *)

Module Py.

(** What [json.load] returns: [None], [bool], [int], [float], [str],
    [list] and [dict].  A dict is kept in insertion order as an
    association list; Python holds each key once, and a lookup reads the
    first binding, so the statements below need no side condition on
    keys.  [VObjectId] is the one non-JSON value the script meets: the
    [_id] pymongo generates. *)
Inductive value : Type :=
| VNone
| VBool (b : bool)
| VInt (z : Z)
| VFloat (f : spec_float)
| VStr (s : string)
| VList (l : list value)
| VDict (o : list (string * value))
| VObjectId (n : N).

Definition dict := list (string * value).

(** [o.get(k)] / [o[k]] *)
Fixpoint dict_get (k : string) (o : dict) : option value :=
  match o with
  | [] => None
  | (k', v) :: o' => if String.eqb k k' then Some v else dict_get k o'
  end.

(** [k in o] *)
Definition dict_mem (k : string) (o : dict) : bool :=
  match dict_get k o with Some _ => true | None => false end.

(** [o.get(k, default)] *)
Definition dict_get_default (k : string) (default : value) (o : dict) : value :=
  match dict_get k o with Some v => v | None => default end.

(** [float.is_integer()] *)
Definition float_is_integer (f : spec_float) : bool :=
  match f with
  | S754_zero _ => true
  | S754_finite _ m e =>
      if (0 <=? e)%Z then true else (Z.pos m mod 2 ^ (- e) =? 0)%Z
  | S754_infinity _ | S754_nan => false
  end.

Definition float_is_zero (f : spec_float) : bool :=
  match f with S754_zero _ => true | _ => false end.

(** Python truthiness, as [if x:] and [not x] read it. *)
Definition truthy (v : value) : bool :=
  match v with
  | VNone => false
  | VBool b => b
  | VInt z => negb (z =? 0)%Z
  | VFloat f => negb (float_is_zero f)
  | VStr s => negb (String.eqb s "")
  | VList l => match l with [] => false | _ => true end
  | VDict o => match o with [] => false | _ => true end
  | VObjectId _ => true
  end.

(** [v == s] for a [str] literal [s]: only an equal [str] compares equal. *)
Definition eq_str (v : value) (s : string) : bool :=
  match v with VStr t => String.eqb t s | _ => false end.

Definition is_str (v : value) : bool :=
  match v with VStr _ => true | _ => false end.

(** [s.endswith(suffix)] *)
Definition endswith (s suffix : string) : bool :=
  let n := String.length s in
  let m := String.length suffix in
  (m <=? n)%nat && String.eqb (substring (n - m) m s) suffix.

(** Exceptions carry their class name and message, which is what the
    handlers of the script read ([type(e).__name__], [str(e)]). *)
Record exn : Type := Exn { exn_type : string; exn_message : string }.

Inductive result (A : Type) : Type :=
| Ok (a : A)
| Raise (e : exn).
Arguments Ok {A} a.
Arguments Raise {A} e.

Definition bind {A B : Type} (r : result A) (k : A -> result B) : result B :=
  match r with Ok a => k a | Raise e => Raise e end.

End Py.
Export Py.

Notation "x <- r ;; k" := (bind r (fun x => k))
  (at level 61, r at next level, right associativity).

(* ================================================================== *)
(** ** jsonschema *)

Module JsonSchema.

Inductive jtype : Type :=
| TString | TInteger | TNumber | TNull | TArray | TObject | TBoolean.

(** The one pattern of [study_schema]: [".*"], which [re.search] finds in
    every key (it matches the empty string at position 0). *)
Inductive regex : Type := DotStar.

Definition re_search (p : regex) (key : string) : bool :=
  match p with DotStar => true end.

(** A schema object, by the keywords [study_schema] uses; [None] and [[]]
    stand for an absent keyword. *)
Inductive schema : Type :=
| Schema (type_ : option (list jtype))
         (properties : list (string * schema))
         (required : list string)
         (items : option schema)
         (oneOf : option (list schema))
         (patternProperties : list (regex * schema))
         (additionalProperties : option bool).

(** The type checker of drafts 6 and later (the library's default when the
    schema names no [$schema]): [bool] is neither integer nor number, and a
    float with no fractional part is an integer. *)
Definition is_type (t : jtype) (v : value) : bool :=
  match t, v with
  | TString, VStr _ => true
  | TInteger, VInt _ => true
  | TInteger, VFloat f => float_is_integer f
  | TNumber, VInt _ => true
  | TNumber, VFloat _ => true
  | TNull, VNone => true
  | TArray, VList _ => true
  | TObject, VDict _ => true
  | TBoolean, VBool _ => true
  | _, _ => false
  end.

Definition check_type (ts : option (list jtype)) (v : value) : bool :=
  match ts with
  | None => true
  | Some l => existsb (fun t => is_type t v) l
  end.

(** [required]: every listed key is in the instance (objects only). *)
Definition check_required (req : list string) (v : value) : bool :=
  match v with
  | VDict o => forallb (fun k => dict_mem k o) req
  | _ => true
  end.

(** [additionalProperties: false]: no key outside [properties] and the
    patterns of [patternProperties]. *)
Definition extra_keys {S : Type} (props : list (string * S))
    (pats : list (regex * S)) (o : dict) : list string :=
  filter (fun k => negb (existsb (String.eqb k) (map fst props))
                   && negb (existsb (fun p => re_search (fst p) k) pats))
         (map fst o).

Definition check_additional {S : Type} (addl : option bool)
    (props : list (string * S)) (pats : list (regex * S)) (v : value) : bool :=
  match addl, v with
  | Some false, VDict o =>
      match extra_keys props pats o with [] => true | _ => false end
  | _, _ => true
  end.

(** [validate(instance=v, schema=s)]: [true] when the call returns,
    [false] when it raises [ValidationError]. *)
Fixpoint validate (s : schema) (v : value) {struct s} : bool :=
  match s with
  | Schema type_ properties required items oneOf patternProperties
           additionalProperties =>
      check_type type_ v
      && match v with
         | VDict o =>
             forallb (fun p => match p with
                               | (k, sub) =>
                                   match dict_get k o with
                                   | Some x => validate sub x
                                   | None => true
                                   end
                               end) properties
         | _ => true
         end
      && check_required required v
      && match items, v with
         | Some sub, VList l => forallb (validate sub) l
         | _, _ => true
         end
      && match oneOf with
         | Some subs =>
             (List.length (filter (fun sub => validate sub v) subs) =? 1)%nat
         | None => true
         end
      && match v with
         | VDict o =>
             forallb (fun p => match p with
                               | (pat, sub) =>
                                   forallb (fun kv =>
                                              if re_search pat (fst kv)
                                              then validate sub (snd kv)
                                              else true) o
                               end) patternProperties
         | _ => true
         end
      && check_additional additionalProperties properties patternProperties v
  end.

Definition schema_properties (s : schema) : list (string * schema) :=
  match s with Schema _ properties _ _ _ _ _ => properties end.

Definition schema_required (s : schema) : list string :=
  match s with Schema _ _ required _ _ _ _ => required end.

(** Builders for the shapes that recur in the schema document. *)
Definition ty (ts : list jtype) : schema :=
  Schema (Some ts) [] [] None None [] None.

Definition array_of (item : schema) : schema :=
  Schema (Some [TArray]) [] [] (Some item) None [] None.

Definition object_with (props : list (string * schema)) (req : list string)
  : schema :=
  Schema (Some [TObject]) props req None None [] None.

End JsonSchema.
Export JsonSchema.

(* ================================================================== *)
(** ** The schema document (lines 7-141) *)

Definition string_ : schema := ty [TString].
Definition strings : schema := array_of string_.

Definition affiliation_schema : schema :=
  object_with [("institution", string_); ("country", string_)]
              ["institution"; "country"].

Definition author_schema : schema :=
  object_with [("name", string_);
               ("affiliations", array_of affiliation_schema)]
              ["name"].

(** The item schema shared by [source_dataset] and [target_dataset]. *)
Definition dataset_schema : schema :=
  object_with [("name", string_);
               ("size", ty [TInteger; TString; TNull]);
               ("pd_patients", ty [TInteger; TNull]);
               ("controls", ty [TInteger; TNull]);
               ("url", ty [TString; TNull]);
               ("doi", ty [TString; TNull])]
              ["name"].

Definition feature_selection_schema : schema :=
  Schema None [] [] None
    (Some [ty [TNull];
           object_with [("methods", strings); ("combination", string_)]
                       ["methods"]])
    [] None.

Definition results_schema : schema :=
  Schema (Some [TObject]) [] [] None None
    [(DotStar, ty [TNumber; TString; TNull])]
    (Some false).

Definition ml_approach_schema : schema :=
  object_with [("algorithm", string_);
               ("framework", ty [TString; TNull]);
               ("feature_extraction", strings);
               ("feature_selection", feature_selection_schema);
               ("missing_value_handling", strings);
               ("outlier_handling", strings);
               ("imbalance_handling", strings);
               ("scaling", strings);
               ("dimensionality_reduction", strings);
               ("sample_selection", strings);
               ("input_speech", string_);
               ("validation", ty [TString; TNull]);
               ("results", results_schema)]
              ["algorithm"; "results"].

Definition study_schema : schema :=
  Schema (Some [TObject])
    [("study_id", string_);
     ("title", string_);
     ("authors", array_of author_schema);
     ("ml_problem_type", strings);
     ("problem", string_);
     ("publication_type", string_);
     ("journal", string_);
     ("year", ty [TInteger; TString]);
     ("doi", string_);
     ("abstract", string_);
     ("source_dataset", array_of dataset_schema);
     ("target_dataset", array_of dataset_schema);
     ("ml_approaches", array_of ml_approach_schema)]
    ["study_id"; "title"; "authors"; "publication_type"; "journal"; "year";
     "doi"; "ml_approaches"]
    None None []
    (Some true).

(* ================================================================== *)
(** ** The backing store *)

(** A filter as the script builds it: a dict from a (dotted) field path to
    either a literal ([query["doi"] = data["doi"]]), [{"$in": names}] or
    [{"$exists": True}]. *)
Inductive operator : Type :=
| Eq (v : value)
| In_ (vs : list value)
| Exists (b : bool).

Definition query_filter := list (string * operator).

(** The two operations the script calls on [collection].  Either may raise
    (a lost connection, a rejected write); [find_one] returns the matched
    document as a dict. *)
Class Collection (C : Type) : Type := {
  find_one : query_filter -> C -> result (option dict);
  insert_one : value -> C -> result C
}.

(** MongoDB, for the filters above.  A document is its [_id] and its other
    fields; the server stores and returns [_id] first.  The literals the
    script passes are strings (the [doi] or [title] of a record that
    validated, dataset names); any other literal is compared as a value.
    Of the writes the server refuses, the taken [_id] is modelled; the
    statements over any [Collection] cover every other fault. *)
Module Mongo.

Record document : Type := Doc { doc_id : value; doc_fields : dict }.

Definition as_dict (d : document) : dict := ("_id", doc_id d) :: doc_fields d.

Definition collection := list document.

Definition sf_eqb (a b : spec_float) : bool :=
  match a, b with
  | S754_zero _, S754_zero _ => true
  | S754_infinity s, S754_infinity s' => Bool.eqb s s'
  | S754_nan, S754_nan => true
  | S754_finite s m e, S754_finite s' m' e' =>
      Bool.eqb s s' && Pos.eqb m m' && Z.eqb e e'
  | _, _ => false
  end.

(** The integer a float denotes exactly, if it denotes one. *)
Definition float_to_int (f : spec_float) : option Z :=
  match f with
  | S754_zero _ => Some 0%Z
  | S754_finite s m e =>
      if float_is_integer f then
        let a := if (0 <=? e)%Z then (Z.pos m * 2 ^ e)%Z
                 else (Z.pos m / 2 ^ (- e))%Z in
        Some (if s then (- a)%Z else a)
      else None
  | _ => None
  end.

(** Equality of a filter literal and a stored value: numbers by the number
    they denote, everything else by structure (documents field by field,
    in order). *)
Fixpoint value_eqb (a b : value) {struct a} : bool :=
  match a, b with
  | VNone, VNone => true
  | VBool x, VBool y => Bool.eqb x y
  | VInt x, VInt y => Z.eqb x y
  | VInt x, VFloat g =>
      match float_to_int g with Some y => Z.eqb x y | None => false end
  | VFloat f, VInt y =>
      match float_to_int f with Some x => Z.eqb x y | None => false end
  | VFloat f, VFloat g => sf_eqb f g
  | VStr s, VStr t => String.eqb s t
  | VList xs, VList ys =>
      (fix go (xs ys : list value) : bool :=
         match xs, ys with
         | [], [] => true
         | x :: xs', y :: ys' => value_eqb x y && go xs' ys'
         | _, _ => false
         end) xs ys
  | VDict xs, VDict ys =>
      (fix go (xs : list (string * value)) (ys : dict) : bool :=
         match xs, ys with
         | [], [] => true
         | (k, x) :: xs', (k', y) :: ys' =>
             String.eqb k k' && value_eqb x y && go xs' ys'
         | _, _ => false
         end) xs ys
  | VObjectId m, VObjectId n => N.eqb m n
  | _, _ => false
  end.

(** ["dataset.name".split(".")] *)
Fixpoint split_on (c : ascii) (s : string) : list string :=
  match s with
  | EmptyString => [EmptyString]
  | String a s' =>
      if Ascii.eqb a c then EmptyString :: split_on c s'
      else match split_on c s' with
           | w :: ws => String a w :: ws
           | [] => [String a EmptyString]
           end
  end.

Definition path_of (field : string) : list string := split_on "."%char field.

(** What a leaf holds for matching: the value, and when it is an array
    each of its elements too. *)
Definition leaf_values (v : value) : list value :=
  match v with
  | VList l => v :: l
  | _ => [v]
  end.

(** The values a dotted path reaches in a document.  Under an array the
    path continues into each element that is a document. *)
Fixpoint path_values (p : list string) (v : value) {struct p} : list value :=
  match p with
  | [] => leaf_values v
  | k :: p' =>
      let step (o : dict) : list value :=
        match dict_get k o with
        | Some x => path_values p' x
        | None => []
        end in
      match v with
      | VDict o => step o
      | VList l =>
          flat_map (fun e => match e with VDict o => step o | _ => [] end) l
      | _ => []
      end
  end.

(** A literal matches when some reached value equals it; [null] also
    matches a path that reaches nothing. *)
Definition literal_matches (lit : value) (vals : list value) : bool :=
  existsb (value_eqb lit) vals
  || match lit, vals with VNone, [] => true | _, _ => false end.

Definition operator_matches (op : operator) (vals : list value) : bool :=
  match op with
  | Eq v => literal_matches v vals
  | In_ vs => existsb (fun v => literal_matches v vals) vs
  | Exists b => Bool.eqb b (match vals with [] => false | _ => true end)
  end.

(** Every clause of the filter holds of the document. *)
Definition matches (q : query_filter) (d : document) : bool :=
  forallb (fun c => operator_matches (snd c)
                      (path_values (path_of (fst c)) (VDict (as_dict d)))) q.

(** [collection.find_one(q)]: the first matching document, else [None]. *)
Definition find_one (q : query_filter) (c : collection) : option dict :=
  option_map as_dict (find (matches q) c).

Definition has_id (i : value) (d : document) : bool := value_eqb i (doc_id d).

Definition object_ids (c : collection) : list N :=
  flat_map (fun d => match doc_id d with VObjectId n => [n] | _ => [] end) c.

(** The [ObjectId] the driver generates: one no document carries yet. *)
Definition fresh_oid (c : collection) : N :=
  N.succ (fold_right N.max 0%N (object_ids c)).

Definition without_id (o : dict) : dict :=
  filter (fun kv => negb (String.eqb (fst kv) "_id")) o.

(** [collection.insert_one(data)]: a document that brings its own [_id]
    is refused when the [_id] is taken; one without gets a fresh
    [ObjectId].  Anything but a dict is a [TypeError]. *)
Definition insert_one (data : value) (c : collection) : result collection :=
  match data with
  | VDict o =>
      match dict_get "_id" o with
      | Some i =>
          if existsb (has_id i) c
          then Raise (Exn "DuplicateKeyError" "E11000 duplicate key error")
          else Ok (c ++ [Doc i (without_id o)])
      | None => Ok (c ++ [Doc (VObjectId (fresh_oid c)) o])
      end
  | _ => Raise (Exn "TypeError" "document must be an instance of dict")
  end.

End Mongo.

#[export] Instance mongo_collection : Collection Mongo.collection := {|
  find_one q c := Ok (Mongo.find_one q c);
  insert_one := Mongo.insert_one
|}.

(* ================================================================== *)
(** ** The files under the folder *)

(** What [json.load(f)] does with a file: returns the decoded value,
    raises [JSONDecodeError] (message, line, column), or raises something
    else (a [UnicodeDecodeError] while reading, say). *)
Inductive load_result : Type :=
| Decoded (data : value)
| JSONDecodeError (msg : string) (lineno colno : nat)
| LoadRaises (e : exn).

(** A directory entry: its name, what [open(file_path)] does ([Some e]:
    it raises [e]) and what [json.load] does once it is open. *)
Record file : Type := File {
  filename : string;
  open_raises : option exn;
  load : load_result
}.

(** [os.walk(folder_path)]: each directory with the files in it. *)
Definition walk := list (string * list file).

(** [os.path.isdir(folder_path)] and, when it holds, the walk. *)
Inductive folder : Type :=
| NotADirectory
| Directory (w : walk).

(** [os.path.join(root, filename)] for a plain file name. *)
Definition path_join (root name : string) : string :=
  if String.eqb root "" then name
  else if endswith root "/" then root ++ name
  else root ++ "/" ++ name.

(* ================================================================== *)
(** ** import_json_studies (lines 144-298) *)

Record duplicate_entry : Type := {
  dup_file : string;
  dup_reason : string;
  dup_value : value;
  dup_existing_id : value  (* [existing["_id"]], before [str] *)
}.

(** The [error] text of a validation entry is the library's rendering of
    its exception; the entry is kept by its file. *)
Record validation_entry : Type := { val_file : string }.

Record load_error_entry : Type := {
  err_file : string;
  err_type : string;
  err_message : string;
  err_position : option (nat * nat)
}.

Section Pipeline.

Context {C : Type} `{Collection C}.

(** The locals of the run: the collection, the four counters and the
    three report lists (lines 174-179). *)
Record state : Type := {
  collection : C;
  count_inserted : nat;
  count_skipped : nat;
  count_invalid : nat;
  count_load_errors : nat;
  duplicate_report : list duplicate_entry;
  validation_report : list validation_entry;
  load_error_report : list load_error_entry
}.

Definition initial_state (c : C) : state :=
  {| collection := c;
     count_inserted := 0; count_skipped := 0;
     count_invalid := 0; count_load_errors := 0;
     duplicate_report := []; validation_report := [];
     load_error_report := [] |}.

(** Lines 164-172: [skip_duplicate_check] after the menu: [True], [False]
    or the string ["basic"]. *)
Definition skip_duplicate_check_of (dup_choice : string) : value :=
  if String.eqb dup_choice "1" then VBool true
  else if String.eqb dup_choice "2" then VBool false
  else VStr "basic".

(** Lines 208-211. *)
Definition basic_query (data : dict) : query_filter :=
  match dict_get "doi" data with
  | Some doi =>
      if truthy doi then [("doi", Eq doi)]
      else match dict_get "title" data with
           | Some title => [("title", Eq title)]
           | None => []
           end
  | None =>
      match dict_get "title" data with
      | Some title => [("title", Eq title)]
      | None => []
      end
  end.

(** [[d.get("name", "") for d in l if isinstance(d, dict)]] *)
Fixpoint names_of (l : list value) : list value :=
  match l with
  | [] => []
  | VDict d :: l' => dict_get_default "name" (VStr "") d :: names_of l'
  | _ :: l' => names_of l'
  end.

(** Lines 220-222 and 230-232. *)
Definition dataset_names (data : dict) : list value :=
  match dict_get "dataset" data with
  | Some (VList l) => names_of l
  | _ => []
  end.

(** [{"$in": dataset_names} if dataset_names else {"$exists": True}] *)
Definition dataset_clause (names : list value) : operator :=
  if truthy (VList names) then In_ names else Exists true.

(** Lines 218-237. *)
Definition enhanced_query (data : dict) : query_filter :=
  match dict_get "doi" data with
  | Some doi =>
      if truthy doi
      then [("doi", Eq doi);
            ("dataset.name", dataset_clause (dataset_names data))]
      else match dict_get "title" data with
           | Some title =>
               [("title", Eq title);
                ("dataset.name", dataset_clause (dataset_names data))]
           | None => []
           end
  | None =>
      match dict_get "title" data with
      | Some title =>
          [("title", Eq title);
           ("dataset.name", dataset_clause (dataset_names data))]
      | None => []
      end
  end.

(** ["doi" in query] *)
Definition query_mem (k : string) (q : query_filter) : bool :=
  existsb (fun c => String.eqb k (fst c)) q.

(** [data.get("doi", data.get("title", "unknown"))] *)
Definition reported_value (data : dict) : value :=
  dict_get_default "doi"
    (dict_get_default "title" (VStr "unknown") data) data.

(** Lines 203-251: the duplicate check.  [Ok (Some entry)] is the branch
    that appends [entry] to the duplicate report and [continue]s;
    [Ok None] falls through to the insert. *)
Definition duplicate_check (skip_duplicate_check : value)
    (file_path : string) (data : dict) (c : C)
  : result (option duplicate_entry) :=
  if negb (truthy skip_duplicate_check) then
    let query :=
      if eq_str skip_duplicate_check "basic"
      then basic_query data else enhanced_query data in
    let reason_text :=
      if eq_str skip_duplicate_check "basic"
      then (if query_mem "doi" query then "doi" else "title")
      else (if query_mem "doi" query then "doi+dataset"
            else "title+dataset") in
    match query with
    | [] => Ok None
    | _ :: _ =>
        found <- find_one query c ;;
        match found with
        | Some existing =>
            if truthy (VDict existing) then
              match dict_get "_id" existing with
              | Some id =>
                  Ok (Some {| dup_file := file_path;
                              dup_reason := reason_text;
                              dup_value := reported_value data;
                              dup_existing_id := id |})
              | None => Raise (Exn "KeyError" "'_id'")
              end
            else Ok None
        | None => Ok None
        end
    end
  else Ok None.

(** How the [try] body of one file (lines 188-255) ends. *)
Inductive try_end : Type :=
| Normal (st : state)
| DecodeFailed (msg : string) (lineno colno : nat)
| Failed (e : exn).

Definition add_invalid (file_path : string) (st : state) : state :=
  {| collection := collection st;
     count_inserted := count_inserted st;
     count_skipped := count_skipped st;
     count_invalid := S (count_invalid st);
     count_load_errors := count_load_errors st;
     duplicate_report := duplicate_report st;
     validation_report :=
       validation_report st ++ [{| val_file := file_path |}];
     load_error_report := load_error_report st |}.

Definition add_duplicate (entry : duplicate_entry) (st : state) : state :=
  {| collection := collection st;
     count_inserted := count_inserted st;
     count_skipped := S (count_skipped st);
     count_invalid := count_invalid st;
     count_load_errors := count_load_errors st;
     duplicate_report := duplicate_report st ++ [entry];
     validation_report := validation_report st;
     load_error_report := load_error_report st |}.

Definition add_inserted (c' : C) (st : state) : state :=
  {| collection := c';
     count_inserted := S (count_inserted st);
     count_skipped := count_skipped st;
     count_invalid := count_invalid st;
     count_load_errors := count_load_errors st;
     duplicate_report := duplicate_report st;
     validation_report := validation_report st;
     load_error_report := load_error_report st |}.

Definition add_load_error (entry : load_error_entry) (st : state) : state :=
  {| collection := collection st;
     count_inserted := count_inserted st;
     count_skipped := count_skipped st;
     count_invalid := count_invalid st;
     count_load_errors := S (count_load_errors st);
     duplicate_report := duplicate_report st;
     validation_report := validation_report st;
     load_error_report := load_error_report st ++ [entry] |}.

(** Lines 188-255. *)
Definition try_body (skip_duplicate_check : value) (file_path : string)
    (f : file) (st : state) : try_end :=
  match load f with
  | JSONDecodeError msg lineno colno => DecodeFailed msg lineno colno
  | LoadRaises e => Failed e
  | Decoded data =>
      if validate study_schema data then
        match data with
        | VDict o =>
            match duplicate_check skip_duplicate_check file_path o
                    (collection st) with
            | Raise e => Failed e
            | Ok (Some entry) => Normal (add_duplicate entry st)
            | Ok None =>
                match insert_one data (collection st) with
                | Ok c' => Normal (add_inserted c' st)
                | Raise e => Failed e
                end
            end
        | _ =>
            (* not reached: the schema's type is "object" *)
            Failed (Exn "TypeError" "argument is not iterable")
        end
      else Normal (add_invalid file_path st)
  end.

(** Lines 184-275, one file of the loop.  [open] stands outside the [try]:
    an exception it raises leaves the loop ([Raise]); the two handlers
    turn what the body raises into a load-error entry. *)
Definition process_file (skip_duplicate_check : value) (root : string)
    (f : file) (st : state) : result state :=
  if endswith (filename f) ".json" then
    let file_path := path_join root (filename f) in
    match open_raises f with
    | Some e => Raise e
    | None =>
        Ok match try_body skip_duplicate_check file_path f st with
           | Normal st' => st'
           | DecodeFailed msg lineno colno =>
               add_load_error
                 {| err_file := file_path;
                    err_type := "JSON Decode Error";
                    err_message := msg;
                    err_position := Some (lineno, colno) |} st
           | Failed e =>
               add_load_error
                 {| err_file := file_path;
                    err_type := exn_type e;
                    err_message := exn_message e;
                    err_position := None |} st
           end
    end
  else Ok st.

(** The inner loop over the files of one directory.  The pair is the state
    reached and the exception that ended the loop early, if one did. *)
Fixpoint process_files (skip_duplicate_check : value) (root : string)
    (files : list file) (st : state) : state * option exn :=
  match files with
  | [] => (st, None)
  | f :: files' =>
      match process_file skip_duplicate_check root f st with
      | Ok st' => process_files skip_duplicate_check root files' st'
      | Raise e => (st, Some e)
      end
  end.

(** The outer loop, lines 182-275. *)
Fixpoint process_walk (skip_duplicate_check : value) (w : walk)
    (st : state) : state * option exn :=
  match w with
  | [] => (st, None)
  | (root, files) :: w' =>
      match process_files skip_duplicate_check root files st with
      | (st', None) => process_walk skip_duplicate_check w' st'
      | (st', Some e) => (st', Some e)
      end
  end.

Inductive report : Type :=
| DuplicateReport (entries : list duplicate_entry)
| ValidationReport (entries : list validation_entry)
| LoadErrorReport (entries : list load_error_entry).

(** Lines 284-298: the files written at the end of the run. *)
Definition save_reports (st : state) : list (string * report) :=
  (match duplicate_report st with
   | [] => []
   | _ :: _ => [("duplicate_report.json", DuplicateReport (duplicate_report st))]
   end)
  ++ (match validation_report st with
      | [] => []
      | _ :: _ =>
          [("validation_report.json", ValidationReport (validation_report st))]
      end)
  ++ (match load_error_report st with
      | [] => []
      | _ :: _ =>
          [("load_error_report.json", LoadErrorReport (load_error_report st))]
      end).

(** How a call of [import_json_studies] ends. *)
Inductive run_end : Type :=
| FolderMissing                 (* lines 152-154: message, [return] *)
| Aborted (e : exn) (st : state)  (* an exception left the function *)
| Completed (st : state) (written : list (string * report)).

Definition import_json_studies (folder_path : folder) (dup_choice : string)
    (c : C) : run_end :=
  match folder_path with
  | NotADirectory => FolderMissing
  | Directory w =>
      match process_walk (skip_duplicate_check_of dup_choice) w
              (initial_state c) with
      | (st, None) => Completed st (save_reports st)
      | (st, Some e) => Aborted e st
      end
  end.

(** The collection a run leaves behind. *)
Definition store_after (r : run_end) (c : C) : C :=
  match r with
  | FolderMissing => c
  | Aborted _ st => collection st
  | Completed st _ => collection st
  end.

(** The number of inserts a run made. *)
Definition inserted (r : run_end) : nat :=
  match r with
  | FolderMissing => 0
  | Aborted _ st => count_inserted st
  | Completed st _ => count_inserted st
  end.

End Pipeline.

Arguments state C : clear implicits.
Arguments run_end C : clear implicits.
Arguments try_end C : clear implicits.

(* ================================================================== *)
(** ** check_file_health (lines 300-376) *)

(** [type(v).__name__] *)
Definition type_name (v : value) : string :=
  match v with
  | VNone => "NoneType"
  | VBool _ => "bool"
  | VInt _ => "int"
  | VFloat _ => "float"
  | VStr _ => "str"
  | VList _ => "list"
  | VDict _ => "dict"
  | VObjectId _ => "ObjectId"
  end.

(** [needle in v] for a [str] needle: a key of a dict, an element of a
    list, a substring of a string; anything else is no container and the
    test raises [TypeError]. *)
Definition contains (needle : string) (v : value) : result bool :=
  match v with
  | VDict o => Ok (dict_mem needle o)
  | VList l => Ok (existsb (fun e => eq_str e needle) l)
  | VStr s =>
      Ok match index 0 needle s with Some _ => true | None => false end
  | _ =>
      Raise (Exn "TypeError"
               ("argument of type '" ++ type_name v ++ "' is not iterable"))
  end.

(** Lines 330-333: the required fields that are not in [data], in the
    order of the list. *)
Fixpoint missing_fields_of (required : list string) (data : value)
  : result (list string) :=
  match required with
  | [] => Ok []
  | required_field :: rest =>
      present <- contains required_field data ;;
      more <- missing_fields_of rest data ;;
      Ok (if present then more else required_field :: more)
  end.

(** Line 331. *)
Definition health_fields : list string :=
  ["title"; "year"; "doi"; "ml_approaches"].

(** The [details] of an entry: the list of missing fields, or a text. *)
Inductive issue_details : Type :=
| MissingFields (fields : list string)
| Message (text : string).

Record health_issue : Type := {
  issue_file : string;
  issue : string;
  details : issue_details
}.

(** The locals of the scan (lines 314-316). *)
Record health_state : Type := {
  total_files : nat;
  valid_files : nat;
  problematic_files : list health_issue
}.

Definition add_valid (st : health_state) : health_state :=
  {| total_files := S (total_files st);
     valid_files := S (valid_files st);
     problematic_files := problematic_files st |}.

Definition add_problem (entry : health_issue) (st : health_state)
  : health_state :=
  {| total_files := S (total_files st);
     valid_files := valid_files st;
     problematic_files := problematic_files st ++ [entry] |}.

(** [str(n)] *)
Definition str_of_nat (n : nat) : string :=
  NilZero.string_of_uint (Nat.to_uint n).

(** Lines 322-355, one [.json] file of the scan.  Here [open] stands
    inside the [try]: whatever it raises is an entry like any other. *)
Definition check_one (file_path : string) (f : file) (st : health_state)
  : health_state :=
  match open_raises f with
  | Some e =>
      add_problem {| issue_file := file_path; issue := exn_type e;
                     details := Message (exn_message e) |} st
  | None =>
      match load f with
      | JSONDecodeError msg lineno colno =>
          add_problem
            {| issue_file := file_path; issue := "JSON Decode Error";
               details :=
                 Message ("Line " ++ str_of_nat lineno ++ ", Column "
                          ++ str_of_nat colno ++ ": " ++ msg) |} st
      | LoadRaises e =>
          add_problem {| issue_file := file_path; issue := exn_type e;
                         details := Message (exn_message e) |} st
      | Decoded data =>
          match missing_fields_of health_fields data with
          | Raise e =>
              add_problem {| issue_file := file_path; issue := exn_type e;
                             details := Message (exn_message e) |} st
          | Ok [] => add_valid st
          | Ok (m :: ms) =>
              add_problem
                {| issue_file := file_path;
                   issue := "Missing required fields";
                   details := MissingFields (m :: ms) |} st
          end
      end
  end.

(** The inner loop, lines 320-355. *)
Fixpoint check_files (root : string) (files : list file) (st : health_state)
  : health_state :=
  match files with
  | [] => st
  | f :: files' =>
      check_files root files'
        (if endswith (filename f) ".json"
         then check_one (path_join root (filename f)) f st
         else st)
  end.

(** The outer loop, lines 319-355. *)
Fixpoint check_walk (w : walk) (st : health_state) : health_state :=
  match w with
  | [] => st
  | (root, files) :: w' => check_walk w' (check_files root files st)
  end.

(** How a call of [check_file_health] ends: on a missing folder, or with
    the counts, the problem list and the report it wrote, if any. *)
Inductive health_end : Type :=
| HealthFolderMissing
| HealthDone (st : health_state) (report : option (list health_issue)).

(** Lines 305-306: the argument, or the typed answer when the argument is
    [None] or empty. *)
Definition health_path (folder_path : option string) (typed : string)
  : string :=
  match folder_path with
  | Some p => if truthy (VStr p) then p else typed
  | None => typed
  end.

(** [fs] is the file system: what a path denotes to [os.path.isdir] and
    [os.walk]. *)
Definition check_file_health (fs : string -> folder)
    (folder_path : option string) (typed : string) : health_end :=
  match fs (health_path folder_path typed) with
  | NotADirectory => HealthFolderMissing
  | Directory w =>
      let st := check_walk w {| total_files := 0; valid_files := 0;
                                problematic_files := [] |} in
      HealthDone st
        match problematic_files st with
        | [] => None
        | _ :: _ => Some (problematic_files st)
        end
  end.

(* ================================================================== *)
(** ** main (lines 378-390) *)

Inductive main_end (C : Type) : Type :=
| MainImport (r : run_end C)
| MainHealth (h : health_end)
| MainInvalidChoice.
Arguments MainImport {C} r.
Arguments MainHealth {C} h.
Arguments MainInvalidChoice {C}.

(** [choice] is the answer to the menu, [typed_folder] and [dup_choice]
    the answers to the prompts of the function it starts. *)
Definition main {C : Type} `{Collection C} (fs : string -> folder)
    (choice typed_folder dup_choice : string) (c : C) : main_end C :=
  if String.eqb choice "1"
  then MainImport (import_json_studies (fs typed_folder) dup_choice c)
  else if String.eqb choice "2"
  then MainHealth (check_file_health fs None typed_folder)
  else MainInvalidChoice.

(* ================================================================== *)
(** ** Example records *)

(** A record with every required field and nothing else; [extra] adds
    fields after them. *)
Definition study (doi title : string) (extra : dict) : dict :=
  [("study_id", VStr "S1"); ("title", VStr title); ("authors", VList []);
   ("publication_type", VStr "article"); ("journal", VStr "J");
   ("year", VInt 2020); ("doi", VStr doi); ("ml_approaches", VList [])]
  ++ extra.

Definition json_file (name : string) (data : dict) : file :=
  {| filename := name; open_raises := None; load := Decoded (VDict data) |}.

(** A stored record with doi X and one dataset, named A. *)
Definition stored_XA : Mongo.document :=
  Mongo.Doc (VObjectId 1)
    (study "X" "T" [("dataset", VList [VDict [("name", VStr "A")]])]).

(** A record with a dataset entry named A. *)
Definition study_A : dict :=
  study "X" "T" [("dataset", VList [VDict [("name", VStr "A")]])].

(** A file system with one folder, [studies]: a valid record, a file that
    is not JSON, a record with two of the scan's four fields, and a file
    the loops pass over. *)
Definition example_fs (path : string) : folder :=
  if String.eqb path "studies" then
    Directory
      [("studies",
        [json_file "a.json" study_A;
         {| filename := "b.json"; open_raises := None;
            load := JSONDecodeError "Expecting value" 1 1 |};
         json_file "c.json" [("title", VStr "T"); ("doi", VStr "X")];
         {| filename := "notes.txt"; open_raises := None;
            load := LoadRaises (Exn "UnicodeDecodeError" "invalid byte") |}])]
  else NotADirectory.

(* ================================================================== *)
(** ** Vocabulary of the statements *)

(** *** Schema validation *)

(** Number, string or null: the values a [results] mapping may hold. *)
Definition is_scalar (x : value) : bool :=
  match x with
  | VInt _ | VFloat _ | VStr _ | VNone => true
  | _ => false
  end.

(** Every required field other than [ml_approaches] is present, and every
    declared property other than [ml_approaches] that is present conforms
    to its schema. *)
Definition others_conform (o : dict) : Prop :=
  (forall k, In k (schema_required study_schema) ->
             k <> "ml_approaches" -> dict_mem k o = true)
  /\ (forall k sub x, In (k, sub) (schema_properties study_schema) ->
                      k <> "ml_approaches" -> dict_get k o = Some x ->
                      validate sub x = true).

(** The stored document conforms to the study schema. *)
Definition conforming (d : Mongo.document) : Prop :=
  validate study_schema (VDict (Mongo.as_dict d)) = true.

(** *** The duplicate check *)

(** [data] has a [doi] that is not empty (line 208: ["doi" in data and
    data["doi"]]). *)
Definition has_doi (data : dict) : bool :=
  match dict_get "doi" data with
  | Some v => truthy v
  | None => false
  end.

(** The string under [k], or [""] when [k] holds none. *)
Definition str_field (k : string) (o : dict) : string :=
  match dict_get k o with
  | Some (VStr s) => s
  | _ => ""
  end.

(** The primary key of a record: its [doi] when that is not empty, else
    its [title]; as the field it is looked up under and the string. *)
Definition primary_key (o : dict) : string * string :=
  if String.eqb (str_field "doi" o) "" then ("title", str_field "title" o)
  else ("doi", str_field "doi" o).

(** What a stored document holds under a top-level field: the value, and
    the elements too when the value is a list. *)
Definition field_values (k : string) (d : Mongo.document) : list value :=
  match dict_get k (Mongo.as_dict d) with
  | Some v => Mongo.leaf_values v
  | None => []
  end.

(** The stored document matches the primary key of the record [o]. *)
Definition key_matches (o : dict) (d : Mongo.document) : Prop :=
  In (VStr (snd (primary_key o))) (field_values (fst (primary_key o)) d).

(** The names one dataset entry of a stored document carries. *)
Definition entry_names (e : dict) : list value :=
  match dict_get "name" e with
  | Some n => Mongo.leaf_values n
  | None => []
  end.

(** The dataset names of a stored document: the [name]s of the entries of
    its [dataset] list (or of [dataset] itself when it is one entry). *)
Definition stored_dataset_names (d : Mongo.document) : list value :=
  match dict_get "dataset" (Mongo.as_dict d) with
  | Some (VDict e) => entry_names e
  | Some (VList l) =>
      flat_map (fun x => match x with VDict e => entry_names e | _ => [] end) l
  | _ => []
  end.

(** The record carries a [dataset] list with an entry whose [name] is a
    string. *)
Definition has_named_dataset (o : dict) : bool :=
  match dict_get "dataset" o with
  | Some (VList l) =>
      existsb (fun x => match x with
                        | VDict e => match dict_get "name" e with
                                     | Some (VStr _) => true
                                     | _ => false
                                     end
                        | _ => false
                        end) l
  | _ => false
  end.

(** The candidate's dataset entries, as the claim reads them: the
    entries of its [dataset] list that are objects; none when the record
    has no [dataset], or one that is not a list. *)
Definition candidate_entries (o : dict) : list dict :=
  match dict_get "dataset" o with
  | Some (VList l) =>
      flat_map (fun x => match x with VDict e => [e] | _ => [] end) l
  | _ => []
  end.

(** The name a candidate's entry stands for: its [name], and the empty
    string when it has none. *)
Definition candidate_name (e : dict) : value :=
  match dict_get "name" e with
  | Some n => n
  | None => VStr ""
  end.

(** The duplicate check of a run under the menu answer [dup_choice] flags
    the record [o] against the collection [c]. *)
Definition flagged (dup_choice : string) (o : dict) (c : Mongo.collection)
  : Prop :=
  exists file_path entry,
    duplicate_check (skip_duplicate_check_of dup_choice) file_path o c
    = Ok (Some entry).

(** *** The loop and the run *)

(** Line 184: the entries of the walk the loop opens. *)
Definition is_json (rf : string * file) : bool :=
  endswith (filename (snd rf)) ".json".

(** The files a walk visits, each with its directory. *)
Definition walk_files (w : walk) : list (string * file) :=
  flat_map (fun rf => map (pair (fst rf)) (snd rf)) w.

Definition folder_files (folder_path : folder) : list (string * file) :=
  match folder_path with
  | NotADirectory => []
  | Directory w => walk_files w
  end.

(** The loop over the files of a walk, one after the other. *)
Fixpoint process_entries {C : Type} `{Collection C}
    (skip_duplicate_check : value) (es : list (string * file))
    (st : state C) : state C * option exn :=
  match es with
  | [] => (st, None)
  | (root, f) :: es' =>
      match process_file skip_duplicate_check root f st with
      | Ok st' => process_entries skip_duplicate_check es' st'
      | Raise e => (st, Some e)
      end
  end.

(** The record of a file that reaches the duplicate check: a [.json] file
    that opens, decodes to a dict and validates. *)
Definition candidate (f : file) : option dict :=
  if endswith (filename f) ".json" then
    match open_raises f, load f with
    | None, Decoded (VDict o) =>
        if validate study_schema (VDict o) then Some o else None
    | _, _ => None
    end
  else None.

(** The state a run ended in, when it got as far as the loop. *)
Definition end_state {C : Type} (r : run_end C) : option (state C) :=
  match r with
  | FolderMissing => None
  | Aborted _ st => Some st
  | Completed st _ => Some st
  end.

(** The files the loop has accounted for. *)
Definition files_counted {C : Type} (st : state C) : nat :=
  count_inserted st + count_skipped st + count_invalid st
  + count_load_errors st.

(** The counters count the entries of the report lists. *)
Definition counters_agree {C : Type} (st : state C) : Prop :=
  List.length (duplicate_report st) = count_skipped st
  /\ List.length (validation_report st) = count_invalid st
  /\ List.length (load_error_report st) = count_load_errors st.

(** Everything the run keeps about the files but the collection itself:
    the counters and the report lists. *)
Definition tally {C : Type} (st : state C) :=
  (count_inserted st, count_skipped st, count_invalid st,
   count_load_errors st, duplicate_report st, validation_report st,
   load_error_report st).

(** Two calls end alike: both return, or both raise the same exception. *)
Definition same_end {A B : Type} (r1 : result A) (r2 : result B) : Prop :=
  match r1, r2 with
  | Ok _, Ok _ => True
  | Raise e1, Raise e2 => e1 = e2
  | _, _ => False
  end.

(** Two steps of the loop have the same outcome: the same exception leaves
    the loop, or the same counters and report entries result. *)
Definition same_outcome {C1 C2 : Type}
    (r1 : result (state C1)) (r2 : result (state C2)) : Prop :=
  match r1, r2 with
  | Ok s1, Ok s2 => tally s1 = tally s2
  | Raise e1, Raise e2 => e1 = e2
  | _, _ => False
  end.

(** The step left the collection and the insert counter alone. *)
Definition same_store {C : Type} (st st' : state C) : Prop :=
  collection st' = collection st /\ count_inserted st' = count_inserted st.

(** [c'] comes from [c] by successful [insert_one] calls, each of a record
    that validated and that the duplicate check let through against the
    store as it stood. *)
Inductive validated_inserts {C : Type} `{Collection C}
    (skip_duplicate_check : value) : C -> C -> Prop :=
| no_insert (c : C) : validated_inserts skip_duplicate_check c c
| one_more_insert (c c' c'' : C) (file_path : string) (o : dict) :
    validated_inserts skip_duplicate_check c c' ->
    validate study_schema (VDict o) = true ->
    duplicate_check skip_duplicate_check file_path o c' = Ok None ->
    insert_one (VDict o) c' = Ok c'' ->
    validated_inserts skip_duplicate_check c c''.

(** A later run cannot insert [o] into [c] under the enhanced check: a
    document matching its filter is there, or its own [_id] is taken. *)
Definition settled (o : dict) (c : Mongo.collection) : Prop :=
  (exists d, In d c /\ Mongo.matches (enhanced_query o) d = true)
  \/ (exists i, dict_get "_id" o = Some i
                /\ existsb (Mongo.has_id i) c = true).

(** *** The health check and the menu *)

(** The scan over the files of a walk, one after the other. *)
Fixpoint check_entries (es : list (string * file)) (st : health_state)
  : health_state :=
  match es with
  | [] => st
  | (root, f) :: es' =>
      check_entries es'
        (if endswith (filename f) ".json"
         then check_one (path_join root (filename f)) f st
         else st)
  end.

Definition initial_health : health_state :=
  {| total_files := 0; valid_files := 0; problematic_files := [] |}.

(** The path the loops give an entry of the walk. *)
Definition entry_path (rf : string * file) : string :=
  path_join (fst rf) (filename (snd rf)).

(** The entry is a [.json] file whose record reaches the duplicate check
    of the import. *)
Definition is_candidate (rf : string * file) : bool :=
  match candidate (snd rf) with Some _ => true | None => false end.

(** The entry is a [.json] file that cannot be opened. *)
Definition cannot_open (rf : string * file) : bool :=
  is_json rf
  && match open_raises (snd rf) with Some _ => true | None => false end.

(** What [open] raises on the first [.json] file that cannot be opened. *)
Definition first_open_failure (es : list (string * file)) : option exn :=
  match find cannot_open es with
  | Some rf => open_raises (snd rf)
  | None => None
  end.

(** The same, for what a path denotes. *)
Definition folder_first_failure (folder_path : folder) : option exn :=
  match folder_path with
  | NotADirectory => None
  | Directory w => first_open_failure (walk_files w)
  end.

(** The two reasons the enhanced check tags a duplicate with. *)
Definition enhanced_reason (reason : string) : Prop :=
  reason = "doi+dataset" \/ reason = "title+dataset".

(** The exception that left [main], if one did. *)
Definition main_raises {C : Type} (m : main_end C) : option exn :=
  match m with
  | MainImport (Aborted e _) => Some e
  | _ => None
  end.

(** The collection [main] leaves behind. *)
Definition main_store_after {C : Type} (m : main_end C) (c : C) : C :=
  match m with
  | MainImport r => store_after r c
  | _ => c
  end.

(* ================================================================== *)
(** ** Facts about dicts and strings *)

Lemma dict_get_In (k : string) (o : dict) (x : value) :
  dict_get k o = Some x -> In (k, x) o.
Proof.
  induction o as [|[k' v] o IH]; simpl; [discriminate|].
  destruct (String.eqb k k') eqn:E.
  - intros [= ->]. apply String.eqb_eq in E. subst. now left.
  - intros Hg. right. auto.
Qed.

Lemma dict_mem_get (k : string) (o : dict) :
  dict_mem k o = true <-> exists x, dict_get k o = Some x.
Proof.
  unfold dict_mem. destruct (dict_get k o).
  - split; eauto.
  - split; [discriminate | intros [x Hx]; discriminate].
Qed.

(* ================================================================== *)
(** ** Facts about validate *)

Section ValidateFacts.

Variables (type_ : option (list jtype)) (properties : list (string * schema))
          (required : list string) (items : option schema)
          (oneOf : option (list schema))
          (patternProperties : list (regex * schema))
          (additionalProperties : option bool).

Let this : schema :=
  Schema type_ properties required items oneOf patternProperties
         additionalProperties.

Lemma validate_type (v : value) :
  validate this v = true -> check_type type_ v = true.
Proof.
  unfold this. simpl. intros Hv.
  repeat (apply andb_prop in Hv; destruct Hv as [Hv ?]). exact Hv.
Qed.

Lemma validate_property (o : dict) (k : string) (sub : schema) (x : value) :
  validate this (VDict o) = true ->
  In (k, sub) properties -> dict_get k o = Some x ->
  validate sub x = true.
Proof.
  unfold this. simpl. intros Hv Hin Hget.
  repeat (apply andb_prop in Hv; destruct Hv as [Hv ?]).
  match goal with
  | Hp : forallb _ properties = true |- _ =>
      rewrite forallb_forall in Hp; specialize (Hp _ Hin); simpl in Hp;
      now rewrite Hget in Hp
  end.
Qed.

Lemma validate_required (o : dict) (k : string) :
  validate this (VDict o) = true -> In k required -> dict_mem k o = true.
Proof.
  unfold this. simpl. intros Hv Hin.
  repeat (apply andb_prop in Hv; destruct Hv as [Hv ?]).
  match goal with
  | Hr : forallb _ required = true |- _ =>
      rewrite forallb_forall in Hr; now apply Hr
  end.
Qed.

End ValidateFacts.

Lemma validate_items (sub : schema) (l : list value) (x : value) :
  validate (array_of sub) (VList l) = true -> In x l ->
  validate sub x = true.
Proof.
  unfold array_of. simpl. rewrite !andb_true_r. intros Hv Hin.
  rewrite forallb_forall in Hv. auto.
Qed.

(** An object schema with no other keyword than [type], [properties],
    [required] and an [additionalProperties] that allows everything. *)
Lemma validate_open_object (props : list (string * schema))
    (req : list string) (addl : option bool) (o : dict) :
  addl <> Some false ->
  validate (Schema (Some [TObject]) props req None None [] addl) (VDict o)
  = forallb (fun p => match dict_get (fst p) o with
                      | Some x => validate (snd p) x
                      | None => true
                      end) props
    && forallb (fun k => dict_mem k o) req.
Proof.
  intros Ha. simpl. rewrite !andb_true_r.
  replace (check_additional addl props [] (VDict o)) with true.
  - rewrite andb_true_r. f_equal.
    induction props as [|[k sub] props IH]; simpl; [reflexivity|].
    now rewrite IH.
  - destruct addl as [[|]|]; simpl; congruence.
Qed.

Ltac in_list := simpl; repeat (first [left; reflexivity | right]).

(** A record that validates is a dict whose [doi] and [title] are strings. *)
Lemma validate_study_dict (v : value) :
  validate study_schema v = true -> exists o, v = VDict o.
Proof.
  intros Hv. apply validate_type in Hv.
  destruct v; simpl in Hv; try discriminate. eauto.
Qed.

Lemma validate_str_field (k : string) (o : dict) :
  validate study_schema (VDict o) = true ->
  In (k, string_) (schema_properties study_schema) ->
  In k (schema_required study_schema) ->
  exists s, dict_get k o = Some (VStr s).
Proof.
  intros Hv Hp Hr.
  pose proof (validate_required _ _ _ _ _ _ _ _ _ Hv Hr) as Hm.
  apply dict_mem_get in Hm. destruct Hm as [x Hx].
  pose proof (validate_property _ _ _ _ _ _ _ _ _ _ _ Hv Hp Hx) as Hs.
  apply validate_type in Hs.
  destruct x; simpl in Hs; try discriminate. eauto.
Qed.

Lemma validate_study_doi (o : dict) :
  validate study_schema (VDict o) = true ->
  exists s, dict_get "doi" o = Some (VStr s).
Proof. intros Hv. apply validate_str_field; [exact Hv | in_list | in_list]. Qed.

Lemma validate_study_title (o : dict) :
  validate study_schema (VDict o) = true ->
  exists s, dict_get "title" o = Some (VStr s).
Proof. intros Hv. apply validate_str_field; [exact Hv | in_list | in_list]. Qed.

Lemma validate_scalar (x : value) :
  validate (ty [TNumber; TString; TNull]) x = is_scalar x.
Proof. destruct x; reflexivity. Qed.

(** The [results] schema accepts exactly the mappings whose values are all
    numbers, strings or nulls. *)
Lemma validate_results (r : dict) :
  validate results_schema (VDict r) = forallb (fun kv => is_scalar (snd kv)) r.
Proof.
  unfold results_schema. simpl. rewrite !andb_true_r.
  assert (Hx : extra_keys (S := schema) []
                 [(DotStar, ty [TNumber; TString; TNull])] r = []).
  { unfold extra_keys. induction r as [|[k x] r IH]; simpl; auto. }
  rewrite Hx, andb_true_r.
  induction r as [|[k x] r IH]; simpl; [reflexivity|].
  rewrite <- IH.
  - f_equal. destruct x; reflexivity.
  - unfold extra_keys in *. simpl in Hx. exact Hx.
Qed.

(* ================================================================== *)
(** ** Schema validation: the claims *)

(** C7.  If some value of some [ml_approaches[i].results] mapping is not a
    number, a string or null (an object, an array, a boolean), [validate]
    fails on the record. *)
Theorem composite_result_rejected (o : dict) (approaches : list value)
    (i : nat) (a results : dict) (k : string) (x : value) :
  dict_get "ml_approaches" o = Some (VList approaches) ->
  nth_error approaches i = Some (VDict a) ->
  dict_get "results" a = Some (VDict results) ->
  dict_get k results = Some x ->
  is_scalar x = false ->
  validate study_schema (VDict o) = false.
Proof.
  intros Hml Hnth Hres Hk Hx.
  destruct (validate study_schema (VDict o)) eqn:Hv; [exfalso | reflexivity].
  assert (Hl : validate (array_of ml_approach_schema) (VList approaches) = true).
  { eapply validate_property; [exact Hv | in_list | exact Hml]. }
  assert (Ha : validate ml_approach_schema (VDict a) = true).
  { eapply validate_items; [exact Hl |]. eapply nth_error_In; eauto. }
  assert (Hr : validate results_schema (VDict results) = true).
  { eapply validate_property; [exact Ha | in_list | exact Hres]. }
  rewrite validate_results, forallb_forall in Hr.
  specialize (Hr _ (dict_get_In _ _ _ Hk)). simpl in Hr. congruence.
Qed.

Lemma composite_result_rejected_witness :
  validate study_schema
    (VDict [("study_id", VStr "S1"); ("title", VStr "T");
            ("authors", VList []); ("publication_type", VStr "article");
            ("journal", VStr "J"); ("year", VInt 2020);
            ("doi", VStr "10.1/x");
            ("ml_approaches",
              VList [VDict [("algorithm", VStr "svm");
                            ("results",
                              VDict [("accuracy",
                                      VList [VInt 1; VInt 2])])]])])
  = false.
Proof.
  apply (composite_result_rejected _
           [VDict [("algorithm", VStr "svm");
                   ("results", VDict [("accuracy", VList [VInt 1; VInt 2])])]]
           0 [("algorithm", VStr "svm");
              ("results", VDict [("accuracy", VList [VInt 1; VInt 2])])]
           [("accuracy", VList [VInt 1; VInt 2])] "accuracy"
           (VList [VInt 1; VInt 2]));
    reflexivity.
Defined.

(** C3, as the code has it.  The schema puts no lower bound on the length
    of [ml_approaches]: a record whose [ml_approaches] is the empty list
    validates exactly when the rest of the record conforms. *)
Theorem empty_ml_approaches_validates (o : dict) :
  dict_get "ml_approaches" o = Some (VList []) ->
  validate study_schema (VDict o) = true <-> others_conform o.
Proof.
  intros Hml. split.
  - intros Hv. split.
    + intros k Hin _. eapply validate_required; eauto.
    + intros k sub x Hin _ Hget. eapply validate_property; eauto.
  - intros [Hreq Hprops]. unfold study_schema.
    rewrite validate_open_object by discriminate.
    apply andb_true_intro. split; apply forallb_forall.
    + intros [k sub] Hin. cbn [fst snd].
      destruct (String.eqb k "ml_approaches") eqn:E.
      * apply String.eqb_eq in E. subst k. rewrite Hml.
        simpl in Hin.
        repeat (destruct Hin as [Hin | Hin];
                [try discriminate Hin;
                 try (injection Hin as <-; reflexivity) |]).
        contradiction.
      * apply String.eqb_neq in E.
        destruct (dict_get k o) eqn:G; [| reflexivity].
        eapply Hprops; eauto.
    + intros k Hin.
      destruct (String.eqb k "ml_approaches") eqn:E.
      * apply String.eqb_eq in E. subst k.
        apply dict_mem_get. eauto.
      * apply String.eqb_neq in E. apply Hreq; auto.
Qed.

Lemma empty_ml_approaches_validates_witness :
  validate study_schema (VDict (study "10.1/x" "T" [])) = true.
Proof.
  apply (proj2 (empty_ml_approaches_validates (study "10.1/x" "T" [])
                  eq_refl)).
  split.
  - intros k Hin Hne. simpl in Hin.
    repeat (destruct Hin as [Hin | Hin]; [subst k; try reflexivity |]);
      try contradiction.
  - intros k sub x Hin Hne. simpl in Hin.
    repeat (destruct Hin as [Hin | Hin];
            [injection Hin as <- <-; simpl;
             try (intros [= <-]; reflexivity); try discriminate |]);
      try contradiction.
Defined.

(** C3, as the spec states it, fails: this record has every required field
    well-typed and an empty [ml_approaches], and [validate] accepts it. *)
Lemma empty_ml_approaches_accepted :
  dict_get "ml_approaches" (study "10.1/x" "T" []) = Some (VList [])
  /\ validate study_schema (VDict (study "10.1/x" "T" [])) <> false.
Proof. split; [reflexivity | vm_compute; discriminate]. Qed.

(* ================================================================== *)
(** ** The duplicate check over any store *)

(* From here on [validate] is used through the facts above. *)
Arguments validate : simpl never.

Section AnyStore.

Context {C : Type} `{Collection C}.

(** With [skip_duplicate_check] truthy the block of lines 204-251 is
    skipped whole. *)
Lemma duplicate_check_truthy (skip_duplicate_check : value)
    (file_path : string) (data : dict) (c : C) :
  truthy skip_duplicate_check = true ->
  duplicate_check skip_duplicate_check file_path data c = Ok None.
Proof. intros Ht. unfold duplicate_check. now rewrite Ht. Qed.

Lemma no_key_no_query (data : dict) :
  has_doi data = false -> dict_mem "title" data = false ->
  basic_query data = [] /\ enhanced_query data = [].
Proof.
  unfold has_doi, dict_mem, basic_query, enhanced_query.
  destruct (dict_get "doi" data) as [doi|];
    destruct (dict_get "title" data); try discriminate;
    intros Hd _; try rewrite Hd; auto.
Qed.

(** C6.  When the record has no non-empty [doi] and no [title], neither
    mode forms a filter, and the duplicate check returns "no duplicate"
    whatever [skip_duplicate_check] is and whatever the store would answer
    (the statement holds of every store, also of one whose [find_one]
    raises): [find_one] is not called. *)
Theorem no_primary_key_no_lookup (skip_duplicate_check : value)
    (file_path : string) (data : dict) (c : C) :
  has_doi data = false -> dict_mem "title" data = false ->
  basic_query data = [] /\ enhanced_query data = []
  /\ duplicate_check skip_duplicate_check file_path data c = Ok None.
Proof.
  intros Hd Ht. destruct (no_key_no_query data Hd Ht) as [Hb He].
  repeat split; auto.
  unfold duplicate_check. rewrite Hb, He.
  destruct (truthy skip_duplicate_check); simpl; [reflexivity|].
  now destruct (eq_str skip_duplicate_check "basic").
Qed.

(** The state a step of the loop leaves is the old one or one of the four
    updates. *)
Lemma process_file_cases (skip_duplicate_check : value) (root : string)
    (f : file) (st st' : state C) :
  process_file skip_duplicate_check root f st = Ok st' ->
  st' = st
  \/ (exists data, load f = Decoded data
                   /\ validate study_schema data = false
                   /\ st' = add_invalid (path_join root (filename f)) st)
  \/ (exists o entry, load f = Decoded (VDict o)
                      /\ validate study_schema (VDict o) = true
                      /\ duplicate_check skip_duplicate_check
                           (path_join root (filename f)) o (collection st)
                         = Ok (Some entry)
                      /\ st' = add_duplicate entry st)
  \/ (exists o c', load f = Decoded (VDict o)
                   /\ validate study_schema (VDict o) = true
                   /\ duplicate_check skip_duplicate_check
                        (path_join root (filename f)) o (collection st)
                      = Ok None
                   /\ insert_one (VDict o) (collection st) = Ok c'
                   /\ st' = add_inserted c' st)
  \/ (exists entry, st' = add_load_error entry st).
Proof.
  unfold process_file, try_body.
  destruct (endswith (filename f) ".json"); [| intros [= <-]; auto].
  destruct (open_raises f); [discriminate|].
  destruct (load f) as [data | msg l k | e].
  - destruct (validate study_schema data) eqn:Hv.
    + destruct data as [| | | | | |o|];
        try solve [intros [= <-]; do 4 right; eauto].
      destruct (duplicate_check _ _ o _) as [[entry|]|e] eqn:Hd.
      * intros [= <-]. right. right. left. eauto 10.
      * destruct (insert_one (VDict o) (collection st)) as [c'|e] eqn:Hi.
        -- intros [= <-]. do 3 right. left. eauto 10.
        -- intros [= <-]. do 4 right. eauto.
      * intros [= <-]. do 4 right. eauto.
    + intros [= <-]. right. left. eauto.
  - intros [= <-]. do 4 right. eauto.
  - intros [= <-]. do 4 right. eauto.
Qed.

Lemma process_file_inserts (skip_duplicate_check : value) (root : string)
    (f : file) (st st' : state C) (c0 : C) :
  process_file skip_duplicate_check root f st = Ok st' ->
  validated_inserts skip_duplicate_check c0 (collection st) ->
  validated_inserts skip_duplicate_check c0 (collection st').
Proof.
  intros Hp Hc.
  destruct (process_file_cases _ _ _ _ _ Hp)
    as [-> | [(data & _ & _ & ->) | [(o & entry & _ & _ & _ & ->)
       | [(o & c' & _ & Hv & Hd & Hi & ->) | (entry & ->)]]]];
    simpl; auto.
  econstructor; eauto.
Qed.

Lemma process_files_inserts (skip_duplicate_check : value) (root : string)
    (files : list file) (st : state C) (c0 : C) :
  validated_inserts skip_duplicate_check c0 (collection st) ->
  validated_inserts skip_duplicate_check c0
    (collection (fst (process_files skip_duplicate_check root files st))).
Proof.
  revert st. induction files as [|f files IH]; intros st Hc; simpl; auto.
  destruct (process_file skip_duplicate_check root f st) as [st'|e] eqn:Hp;
    simpl; auto.
  apply IH. eapply process_file_inserts; eauto.
Qed.

Lemma process_walk_inserts (skip_duplicate_check : value) (w : walk)
    (st : state C) (c0 : C) :
  validated_inserts skip_duplicate_check c0 (collection st) ->
  validated_inserts skip_duplicate_check c0
    (collection (fst (process_walk skip_duplicate_check w st))).
Proof.
  revert st. induction w as [|[root files] w IH]; intros st Hc; simpl; auto.
  pose proof (process_files_inserts skip_duplicate_check root files st c0 Hc)
    as Hf.
  destruct (process_files skip_duplicate_check root files st) as [st' [e|]];
    simpl in *; auto.
Qed.

(** C10.  Whatever the folder, the menu choice and the store, the
    collection a run leaves behind comes from the initial one by
    [insert_one] calls alone, each of a record that had passed
    [validate] against [study_schema] and had not been flagged by the
    duplicate check in the same pass. *)
Theorem run_inserts_only_validated_records (folder_path : folder)
    (dup_choice : string) (c : C) :
  validated_inserts (skip_duplicate_check_of dup_choice) c
    (store_after (import_json_studies folder_path dup_choice c) c).
Proof.
  unfold import_json_studies.
  destruct folder_path as [|w]; simpl; [constructor|].
  pose proof (process_walk_inserts (skip_duplicate_check_of dup_choice) w
                (initial_state c) c (no_insert _ c)) as Hw.
  destruct (process_walk _ w (initial_state c)) as [st [e|]]; exact Hw.
Qed.

End AnyStore.

(* ================================================================== *)
(** ** The loop over any store *)

Section AnyStoreLoop.

Context {C : Type} `{Collection C}.

(** The menu leaves a truthy [skip_duplicate_check] for every answer but
    ["2"]: [True] for ["1"], the non-empty string ["basic"] otherwise. *)
Lemma skip_duplicate_check_truthy (dup_choice : string) :
  dup_choice <> "2" ->
  truthy (skip_duplicate_check_of dup_choice) = true.
Proof.
  intros Hne. unfold skip_duplicate_check_of.
  destruct (String.eqb dup_choice "1"); [reflexivity|].
  destruct (String.eqb dup_choice "2") eqn:E; [| reflexivity].
  apply String.eqb_eq in E. contradiction.
Qed.

(** X2.  So line 203 lets the duplicate check run for the answer ["2"] alone:
    under the "basic" setting the block that holds the basic query
    (lines 206-214) is never entered. *)
Lemma only_choice_2_checks (dup_choice file_path : string) (data : dict)
    (c : C) :
  dup_choice <> "2" ->
  duplicate_check (skip_duplicate_check_of dup_choice) file_path data c
  = Ok None.
Proof.
  intros Hne. apply duplicate_check_truthy.
  now apply skip_duplicate_check_truthy.
Qed.

(** [open] stands before the [try]: what it raises leaves the loop, and
    the files after it are not visited. *)
Lemma open_failure_leaves_loop (skip_duplicate_check : value)
    (root : string) (f : file) (rest : list file) (st : state C) (e : exn) :
  endswith (filename f) ".json" = true ->
  open_raises f = Some e ->
  process_files skip_duplicate_check root (f :: rest) st = (st, Some e).
Proof.
  intros Hj Ho. simpl. unfold process_file. now rewrite Hj, Ho.
Qed.

(** Once the file is open, whatever the body raises is caught: the step
    returns, and exactly one of the four counters went up. *)
Lemma opened_file_is_counted (skip_duplicate_check : value)
    (root : string) (f : file) (st : state C) :
  endswith (filename f) ".json" = true ->
  open_raises f = None ->
  exists st', process_file skip_duplicate_check root f st = Ok st'
              /\ files_counted st' = S (files_counted st).
Proof.
  intros Hj Ho. unfold process_file. rewrite Hj, Ho.
  eexists. split; [reflexivity|].
  unfold try_body, files_counted.
  destruct (load f) as [data | msg l k | e]; simpl; try lia.
  destruct (validate study_schema data); simpl; try lia.
  destruct data; simpl; try lia.
  destruct (duplicate_check _ _ _ _) as [[entry|]|e]; simpl; try lia.
  match goal with
  | |- context [insert_one ?d ?c] => destruct (insert_one d c); simpl; lia
  end.
Qed.

Lemma process_file_counters (skip_duplicate_check : value) (root : string)
    (f : file) (st st' : state C) :
  process_file skip_duplicate_check root f st = Ok st' ->
  counters_agree st -> counters_agree st'.
Proof.
  intros Hp (Hd & Hv & Hl).
  destruct (process_file_cases _ _ _ _ _ Hp)
    as [-> | [(data & _ & _ & ->) | [(o & entry & _ & _ & _ & ->)
       | [(o & c' & _ & _ & _ & _ & ->) | (entry & ->)]]]];
    unfold counters_agree; simpl; rewrite ?length_app; simpl;
    repeat split; lia.
Qed.

Lemma save_reports_names (st : state C) (name : string) :
  In name (map fst (save_reports st)) <->
  (name = "duplicate_report.json" /\ duplicate_report st <> [])
  \/ (name = "validation_report.json" /\ validation_report st <> [])
  \/ (name = "load_error_report.json" /\ load_error_report st <> []).
Proof.
  unfold save_reports.
  destruct (duplicate_report st), (validation_report st),
    (load_error_report st); simpl; split;
    intuition (try congruence; try discriminate).
Qed.

(** C9.  When a run reaches its end, each of the three report files is
    written exactly when its list is not empty, and a file that is
    written holds its own list. *)
Theorem reports_written_iff_nonempty (folder_path : folder)
    (dup_choice : string) (c : C) (st : state C)
    (written : list (string * report)) :
  import_json_studies folder_path dup_choice c = Completed st written ->
  (In "duplicate_report.json" (map fst written)
     <-> duplicate_report st <> [])
  /\ (In "validation_report.json" (map fst written)
        <-> validation_report st <> [])
  /\ (In "load_error_report.json" (map fst written)
        <-> load_error_report st <> [])
  /\ (forall name r, In (name, r) written ->
        (name = "duplicate_report.json"
           /\ r = DuplicateReport (duplicate_report st))
        \/ (name = "validation_report.json"
              /\ r = ValidationReport (validation_report st))
        \/ (name = "load_error_report.json"
              /\ r = LoadErrorReport (load_error_report st))).
Proof.
  unfold import_json_studies. destruct folder_path as [|w]; [discriminate|].
  destruct (process_walk _ w (initial_state c)) as [st0 [e|]];
    [discriminate|].
  intros [= <- <-].
  repeat split; try (rewrite save_reports_names;
                     intuition (try congruence; try discriminate)).
  intros name r. unfold save_reports.
  destruct (duplicate_report st0), (validation_report st0),
    (load_error_report st0); simpl;
    intuition (try congruence;
               match goal with
               | E : (_, _) = (_, _) |- _ => injection E as <- <-; auto
               end).
Qed.

End AnyStoreLoop.

Section TwoStores.

Context {C1 C2 : Type} {H1 : Collection C1} {H2 : Collection C2}.

(** C8, as the code has it.  With the answer ["1"] the duplicate check
    never looks anything up and never flags; the step of the loop calls
    [insert_one] and nothing else of the store, so over two stores (of
    any kind, in any state) on which [insert_one] of the file's record
    ends alike, the file's outcome is the same. *)
Theorem disabled_outcome_depends_on_insert_alone (root : string) (f : file)
    (st1 : state C1) (st2 : state C2) :
  tally st1 = tally st2 ->
  (forall data, load f = Decoded data ->
                same_end (insert_one data (collection st1))
                         (insert_one data (collection st2))) ->
  (forall file_path data,
      duplicate_check (skip_duplicate_check_of "1") file_path data
        (collection st1) = Ok None)
  /\ same_outcome (process_file (skip_duplicate_check_of "1") root f st1)
                  (process_file (skip_duplicate_check_of "1") root f st2).
Proof.
  intros Ht Hins. split; [reflexivity|].
  change (skip_duplicate_check_of "1") with (VBool true).
  destruct st1 as [c1 i1 s1 v1 l1 dr1 vr1 lr1],
           st2 as [c2 i2 s2 v2 l2 dr2 vr2 lr2].
  unfold tally in Ht. simpl in Ht, Hins. injection Ht as -> -> -> -> -> -> ->.
  unfold process_file, try_body.
  destruct (endswith (filename f) ".json"); [| reflexivity].
  destruct (open_raises f); [reflexivity|].
  destruct (load f) as [data | msg l k | e]; try reflexivity.
  specialize (Hins data eq_refl).
  destruct (validate study_schema data); [| reflexivity].
  destruct data; try reflexivity.
  rewrite !duplicate_check_truthy by reflexivity. simpl.
  destruct (insert_one (VDict o) c1), (insert_one (VDict o) c2);
    simpl in *; try contradiction; try reflexivity.
  now subst.
Qed.

End TwoStores.

(* ================================================================== *)
(** ** Facts about the MongoDB model *)

Lemma value_eqb_str (s : string) (v : value) :
  Mongo.value_eqb (VStr s) v = true <-> v = VStr s.
Proof.
  destruct v; simpl; split; try discriminate.
  - intros E. apply String.eqb_eq in E. now subst.
  - intros [= ->]. apply String.eqb_refl.
Qed.

Lemma literal_matches_str (s : string) (vals : list value) :
  Mongo.literal_matches (VStr s) vals = true <-> In (VStr s) vals.
Proof.
  unfold Mongo.literal_matches. rewrite orb_false_r, existsb_exists. split.
  - intros (v & Hin & E). apply value_eqb_str in E. now subst.
  - intros Hin. exists (VStr s). split; [exact Hin | now apply value_eqb_str].
Qed.

Lemma in_clause_strings (names vals : list value) :
  forallb is_str names = true ->
  Mongo.operator_matches (In_ names) vals = true
  <-> exists n, In n names /\ In n vals.
Proof.
  intros Hs. simpl. rewrite existsb_exists.
  rewrite forallb_forall in Hs.
  split; intros (n & Hn & Hm); exists n; split; auto;
    specialize (Hs n Hn); destruct n; try discriminate;
    now apply literal_matches_str.
Qed.

Lemma exists_clause (vals : list value) :
  Mongo.operator_matches (Exists true) vals = true <-> vals <> [].
Proof. destruct vals; simpl; split; congruence. Qed.

Lemma path_values_field (k : string) (d : Mongo.document) :
  Mongo.path_values [k] (VDict (Mongo.as_dict d)) = field_values k d.
Proof. reflexivity. Qed.

Lemma path_values_dataset_name (d : Mongo.document) :
  Mongo.path_values (Mongo.path_of "dataset.name") (VDict (Mongo.as_dict d))
  = stored_dataset_names d.
Proof.
  change (Mongo.path_of "dataset.name") with ["dataset"; "name"].
  unfold stored_dataset_names. cbn [Mongo.path_values].
  destruct (dict_get "dataset" (Mongo.as_dict d)) as [[]|]; reflexivity.
Qed.

(** Over MongoDB the enhanced check never raises, and flags exactly when
    the filter it built is not empty and some document matches it. *)
Lemma enhanced_check_mongo (file_path : string) (o : dict)
    (c : Mongo.collection) :
  duplicate_check (VBool false) file_path o c
  = match enhanced_query o with
    | [] => Ok None
    | _ :: _ =>
        match find (Mongo.matches (enhanced_query o)) c with
        | Some d =>
            Ok (Some {| dup_file := file_path;
                        dup_reason :=
                          if query_mem "doi" (enhanced_query o)
                          then "doi+dataset" else "title+dataset";
                        dup_value := reported_value o;
                        dup_existing_id := Mongo.doc_id d |})
        | None => Ok None
        end
    end.
Proof.
  unfold duplicate_check. cbn [truthy negb eq_str].
  destruct (enhanced_query o) as [|cl q]; [reflexivity|].
  cbn [find_one mongo_collection bind]. unfold Mongo.find_one.
  destruct (find (Mongo.matches (cl :: q)) c) as [d|]; reflexivity.
Qed.

(** The filter the enhanced check builds for a record that validated. *)
Lemma enhanced_query_valid (o : dict) :
  validate study_schema (VDict o) = true ->
  enhanced_query o
  = [(fst (primary_key o), Eq (VStr (snd (primary_key o))));
     ("dataset.name", dataset_clause (dataset_names o))]
  /\ (fst (primary_key o) = "doi" \/ fst (primary_key o) = "title").
Proof.
  intros Hv.
  destruct (validate_study_doi o Hv) as [doi Hd].
  destruct (validate_study_title o Hv) as [title Ht].
  unfold enhanced_query, primary_key, str_field. rewrite Hd, Ht.
  cbn [truthy]. destruct (String.eqb doi ""); simpl; auto.
Qed.

Lemma matches_enhanced (o : dict) (d : Mongo.document) :
  validate study_schema (VDict o) = true ->
  Mongo.matches (enhanced_query o) d = true
  <-> key_matches o d
      /\ Mongo.operator_matches (dataset_clause (dataset_names o))
           (stored_dataset_names d) = true.
Proof.
  intros Hv. destruct (enhanced_query_valid o Hv) as [-> Hk].
  unfold Mongo.matches, key_matches. cbn [forallb fst snd].
  rewrite path_values_dataset_name, andb_true_r, andb_true_iff.
  destruct Hk as [-> | ->];
    match goal with
    | |- context [Mongo.path_of ?k] =>
        change (Mongo.path_of k) with [k]
    end;
    rewrite path_values_field; cbn [Mongo.operator_matches];
    now rewrite literal_matches_str.
Qed.

Lemma flagged_enhanced (o : dict) (c : Mongo.collection) :
  validate study_schema (VDict o) = true ->
  flagged "2" o c
  <-> exists d, In d c /\ Mongo.matches (enhanced_query o) d = true.
Proof.
  intros Hv. unfold flagged.
  change (skip_duplicate_check_of "2") with (VBool false).
  destruct (enhanced_query_valid o Hv) as [Hq _].
  split.
  - intros (file_path & entry & Hd). rewrite enhanced_check_mongo in Hd.
    destruct (find (Mongo.matches (enhanced_query o)) c) as [d|] eqn:Hf.
    + exists d. now apply find_some in Hf.
    + destruct (enhanced_query o); discriminate.
  - intros (d & Hin & Hm). exists "".
    rewrite enhanced_check_mongo.
    destruct (find (Mongo.matches (enhanced_query o)) c) as [d'|] eqn:Hf.
    + rewrite Hq. eauto.
    + pose proof (find_none _ _ Hf d Hin). congruence.
Qed.

(* ================================================================== *)
(** ** The enhanced check over MongoDB *)

(** The verdict of the enhanced check in terms of the list of names the
    script computes on lines 220-222 and 230-232. *)
Lemma enhanced_rule_by_names (o : dict) (c : Mongo.collection) :
  validate study_schema (VDict o) = true ->
  (dataset_names o <> [] -> forallb is_str (dataset_names o) = true ->
   (flagged "2" o c <->
    exists d, In d c /\ key_matches o d
              /\ exists n, In n (dataset_names o)
                           /\ In n (stored_dataset_names d)))
  /\ (dataset_names o = [] ->
      (flagged "2" o c <->
       exists d, In d c /\ key_matches o d /\ stored_dataset_names d <> [])).
Proof.
  intros Hv. split.
  - intros Hne Hs. rewrite (flagged_enhanced o c Hv).
    assert (Hc : dataset_clause (dataset_names o) = In_ (dataset_names o)).
    { unfold dataset_clause. simpl. now destruct (dataset_names o). }
    split; intros (d & Hin & Hm); exists d; split; auto.
    + apply (matches_enhanced o d Hv) in Hm. destruct Hm as [Hk Hd].
      split; [exact Hk|]. rewrite Hc in Hd. now apply in_clause_strings in Hd.
    + destruct Hm as [Hk Hn]. apply (matches_enhanced o d Hv).
      split; [exact Hk|]. rewrite Hc. now apply in_clause_strings.
  - intros He. rewrite (flagged_enhanced o c Hv).
    assert (Hc : dataset_clause (dataset_names o) = Exists true).
    { now rewrite He. }
    split; intros (d & Hin & Hm); exists d; split; auto.
    + apply (matches_enhanced o d Hv) in Hm. destruct Hm as [Hk Hd].
      split; [exact Hk|]. rewrite Hc in Hd. now apply exists_clause.
    + destruct Hm as [Hk Hn]. apply (matches_enhanced o d Hv).
      split; [exact Hk|]. rewrite Hc. now apply exists_clause.
Qed.

(** The list of names the script computes is the list of the names the
    candidate's entries stand for, in order. *)
Lemma dataset_names_entries (o : dict) :
  dataset_names o = map candidate_name (candidate_entries o).
Proof.
  unfold dataset_names, candidate_entries.
  destruct (dict_get "dataset" o) as [[| | | | |l| |]|]; try reflexivity.
  induction l as [|x l IH]; [reflexivity|].
  destruct x; simpl; try exact IH.
  rewrite IH. reflexivity.
Qed.

(** C1, as the code has it.  For a record that validated, under the
    enhanced setting.  The candidate's dataset names are read off the
    object entries of its [dataset] list, each entry standing for its
    [name], or for the empty string when it has none.  When there is such
    an entry (the names being strings), the record is flagged exactly when
    a stored document matches its primary key and holds, among its own
    dataset names, the name of one of the candidate's entries.  When there
    is none (no [dataset], one that is not a list, a list with no object
    in it), the record is flagged exactly when a stored document matches
    its primary key and holds some dataset name, that is, the path
    [dataset.name] exists in it. *)
Theorem enhanced_duplicate_rule (o : dict) (c : Mongo.collection) :
  validate study_schema (VDict o) = true ->
  (candidate_entries o <> [] ->
   (forall e, In e (candidate_entries o) -> is_str (candidate_name e) = true) ->
   (flagged "2" o c <->
    exists d, In d c /\ key_matches o d
              /\ exists e, In e (candidate_entries o)
                           /\ In (candidate_name e) (stored_dataset_names d)))
  /\ (candidate_entries o = [] ->
      (flagged "2" o c <->
       exists d, In d c /\ key_matches o d /\ stored_dataset_names d <> [])).
Proof.
  intros Hv. destruct (enhanced_rule_by_names o c Hv) as [Hsome Hnone].
  rewrite dataset_names_entries in Hsome, Hnone. split.
  - intros Hne Hstr.
    assert (Hn : map candidate_name (candidate_entries o) <> []).
    { destruct (candidate_entries o); [contradiction | discriminate]. }
    assert (Hs : forallb is_str (map candidate_name (candidate_entries o))
                 = true).
    { apply forallb_forall. intros n Hin. apply in_map_iff in Hin.
      destruct Hin as (e & <- & He). now apply Hstr. }
    rewrite (Hsome Hn Hs).
    split; intros (d & Hin & Hk & Hx); exists d; repeat split; auto.
    + destruct Hx as (n & Hn' & Hd). apply in_map_iff in Hn'.
      destruct Hn' as (e & <- & He). eauto.
    + destruct Hx as (e & He & Hd). exists (candidate_name e).
      split; [now apply in_map | exact Hd].
  - intros He. apply Hnone. now rewrite He.
Qed.

(** The cases of the spec's example, against a stored record with doi X
    and dataset name A: candidates with names A and B, with name C alone,
    and with no dataset; and a candidate whose one entry has no name. *)
Lemma enhanced_duplicate_rule_witness :
  flagged "2"
    (study "X" "T" [("dataset", VList [VDict [("name", VStr "A")];
                                       VDict [("name", VStr "B")]])])
    [stored_XA]
  /\ ~ flagged "2"
        (study "X" "T" [("dataset", VList [VDict [("name", VStr "C")]])])
        [stored_XA]
  /\ flagged "2" (study "X" "T" []) [stored_XA]
  /\ ~ flagged "2"
        (study "X" "T" [("dataset", VList [VDict [("size", VInt 5)]])])
        [stored_XA].
Proof.
  split; [| split; [| split]].
  - apply (proj1 (enhanced_duplicate_rule
                    (study "X" "T"
                       [("dataset", VList [VDict [("name", VStr "A")];
                                           VDict [("name", VStr "B")]])])
                    [stored_XA] eq_refl));
      [discriminate | |].
    + intros e [<- | [<- | []]]; reflexivity.
    + exists stored_XA. split; [now left|]. split; [now left|].
      exists [("name", VStr "A")]. split; now left.
  - intros Hf.
    apply (proj1 (enhanced_duplicate_rule
                    (study "X" "T"
                       [("dataset", VList [VDict [("name", VStr "C")]])])
                    [stored_XA] eq_refl)) in Hf;
      [| discriminate | intros e [<- | []]; reflexivity].
    destruct Hf as (d & [<- | []] & _ & e & [<- | []] & [Hin | []]).
    discriminate Hin.
  - apply (proj2 (enhanced_duplicate_rule (study "X" "T" []) [stored_XA]
                    eq_refl));
      [reflexivity |].
    exists stored_XA. split; [now left|]. split; [now left | discriminate].
  - intros Hf.
    apply (proj1 (enhanced_duplicate_rule
                    (study "X" "T"
                       [("dataset", VList [VDict [("size", VInt 5)]])])
                    [stored_XA] eq_refl)) in Hf;
      [| discriminate | intros e [<- | []]; reflexivity].
    destruct Hf as (d & [<- | []] & _ & e & [<- | []] & [Hin | []]).
    discriminate Hin.
Defined.

Example enhanced_other_name_not_flagged :
  ~ flagged "2"
      (study "X" "T" [("dataset", VList [VDict [("name", VStr "C")]])])
      [stored_XA].
Proof.
  intros Hf. apply flagged_enhanced in Hf; [| reflexivity].
  destruct Hf as (d & [<- | []] & Hm). discriminate Hm.
Qed.

(** C1, as the spec states it, fails, twice.  First: the stored document
    matches the primary key of the record and has a [dataset] field, the
    record has no [dataset] at all, and the record is not flagged: the
    filter asks for [dataset.name], which this document lacks.  Second:
    the record's one dataset entry has no [name], so it carries no dataset
    name; the stored document matches its primary key and has dataset
    information, name included; and the record is not flagged: the entry
    is looked up under the empty name. *)
Lemma dataset_without_name_not_flagged :
  let o := study "X" "T" [] in
  let d := Mongo.Doc (VObjectId 1)
             [("doi", VStr "X");
              ("dataset", VList [VDict [("size", VInt 5)]])] in
  let o' := study "X" "T" [("dataset", VList [VDict [("size", VInt 5)]])] in
  (validate study_schema (VDict o) = true
   /\ dict_get "dataset" o = None
   /\ dataset_names o = []
   /\ key_matches o d
   /\ dict_mem "dataset" (Mongo.as_dict d) = true
   /\ ~ flagged "2" o [d])
  /\ (validate study_schema (VDict o') = true
      /\ dict_get "dataset" o' = Some (VList [VDict [("size", VInt 5)]])
      /\ dict_get "name" [("size", VInt 5)] = None
      /\ dataset_names o' = [VStr ""]
      /\ key_matches o' stored_XA
      /\ dict_mem "dataset" (Mongo.as_dict stored_XA) = true
      /\ stored_dataset_names stored_XA = [VStr "A"]
      /\ ~ flagged "2" o' [stored_XA]).
Proof.
  split; repeat split; try reflexivity; try (now left);
    intros Hf; (apply flagged_enhanced in Hf; [| reflexivity]);
    destruct Hf as (d & [<- | []] & Hm); discriminate Hm.
Qed.

(* ================================================================== *)
(** ** Two runs over the same folder *)

Lemma process_walk_entries {C : Type} `{Collection C}
    (skip_duplicate_check : value) (w : walk) (st : state C) :
  process_walk skip_duplicate_check w st
  = process_entries skip_duplicate_check (walk_files w) st.
Proof.
  revert st. induction w as [|[root files] w IH]; intros st; [reflexivity|].
  simpl. revert st. induction files as [|f files IHf]; intros st; simpl.
  - apply IH.
  - destruct (process_file skip_duplicate_check root f st); [apply IHf|].
    reflexivity.
Qed.

Lemma dict_get_without_id (k : string) (o : dict) :
  k <> "_id" -> dict_get k (Mongo.without_id o) = dict_get k o.
Proof.
  intros Hk. induction o as [|[k' v] o IH]; simpl; [reflexivity|].
  destruct (String.eqb k' "_id") eqn:E; simpl.
  - apply String.eqb_eq in E. subst k'.
    apply String.eqb_neq in Hk. now rewrite Hk.
  - now rewrite IH.
Qed.

Lemma names_of_In (e : dict) (l : list value) :
  In (VDict e) l -> In (dict_get_default "name" (VStr "") e) (names_of l).
Proof.
  induction l as [|x l IH]; simpl; [tauto|].
  intros [-> | Hin]; [now left|].
  destruct x; auto. right. auto.
Qed.

Lemma has_named_dataset_names (o : dict) :
  has_named_dataset o = true ->
  exists l e s, dict_get "dataset" o = Some (VList l)
                /\ In (VDict e) l /\ dict_get "name" e = Some (VStr s)
                /\ In (VStr s) (dataset_names o).
Proof.
  unfold has_named_dataset, dataset_names.
  destruct (dict_get "dataset" o) as [[| | | | |l| |]|]; try discriminate.
  rewrite existsb_exists. intros (x & Hin & Hx).
  destruct x as [| | | | | |e|]; try discriminate.
  destruct (dict_get "name" e) as [[| | | |s| | |]|] eqn:Hn; try discriminate.
  exists l, e, s. repeat split; auto.
  pose proof (names_of_In e l Hin) as Hi.
  unfold dict_get_default in Hi. now rewrite Hn in Hi.
Qed.

(** A document stored for the record [o] (its fields are those of [o],
    [_id] apart) matches the filter the enhanced check builds for [o],
    when [o] has a named dataset entry. *)
Lemma own_query_matches (o : dict) (id : value) (fields : dict) :
  validate study_schema (VDict o) = true ->
  has_named_dataset o = true ->
  (forall k, k <> "_id" -> dict_get k fields = dict_get k o) ->
  Mongo.matches (enhanced_query o) (Mongo.Doc id fields) = true.
Proof.
  intros Hv Hn Hf. apply (matches_enhanced o _ Hv). split.
  - unfold key_matches, field_values, primary_key, str_field.
    destruct (validate_study_doi o Hv) as [doi Hd].
    destruct (validate_study_title o Hv) as [title Ht].
    rewrite Hd, Ht.
    destruct (String.eqb doi ""); cbn [fst snd Mongo.as_dict Mongo.doc_id
      Mongo.doc_fields dict_get String.eqb Ascii.eqb Bool.eqb];
      rewrite Hf by discriminate.
    + rewrite Ht. now left.
    + rewrite Hd. now left.
  - destruct (has_named_dataset_names o Hn) as (l & e & s & Hl & He & Hs & Hi).
    assert (Hc : dataset_clause (dataset_names o) = In_ (dataset_names o)).
    { unfold dataset_clause. simpl. destruct (dataset_names o); [easy | auto]. }
    rewrite Hc. simpl. apply existsb_exists. exists (VStr s). split; auto.
    apply literal_matches_str.
    unfold stored_dataset_names.
    cbn [Mongo.as_dict Mongo.doc_id Mongo.doc_fields dict_get String.eqb
         Ascii.eqb Bool.eqb].
    rewrite Hf by discriminate. rewrite Hl.
    apply in_flat_map. exists (VDict e). split; auto.
    unfold entry_names. rewrite Hs. now left.
Qed.

Lemma settled_app (o : dict) (c x : Mongo.collection) :
  settled o c -> settled o (c ++ x).
Proof.
  intros [(d & Hin & Hm) | (i & Hi & He)]; [left | right].
  - exists d. split; auto. apply in_or_app. now left.
  - exists i. split; auto. rewrite existsb_app, He. reflexivity.
Qed.

Lemma insert_one_settles (o : dict) (c c' : Mongo.collection) :
  validate study_schema (VDict o) = true ->
  has_named_dataset o = true ->
  Mongo.insert_one (VDict o) c = Ok c' ->
  settled o c' /\ exists x, c' = c ++ x.
Proof.
  intros Hv Hn. unfold Mongo.insert_one.
  destruct (dict_get "_id" o) as [i|] eqn:Hi.
  - destruct (existsb (Mongo.has_id i) c); [discriminate|].
    intros [= <-]. split; [| eauto]. left.
    exists (Mongo.Doc i (Mongo.without_id o)). split.
    + apply in_or_app. right. now left.
    + apply own_query_matches; auto. intros k Hk.
      now apply dict_get_without_id.
  - intros [= <-]. split; [| eauto]. left.
    exists (Mongo.Doc (VObjectId (Mongo.fresh_oid c)) o). split.
    + apply in_or_app. right. now left.
    + apply own_query_matches; auto.
Qed.

Lemma insert_one_refused (o : dict) (c : Mongo.collection) :
  (exists i, dict_get "_id" o = Some i
             /\ existsb (Mongo.has_id i) c = true) ->
  exists e, Mongo.insert_one (VDict o) c = Raise e.
Proof.
  intros (i & Hi & He). unfold Mongo.insert_one. rewrite Hi, He. eauto.
Qed.

Lemma insert_one_raises_settled (o : dict) (c : Mongo.collection) (e : exn) :
  Mongo.insert_one (VDict o) c = Raise e -> settled o c.
Proof.
  unfold Mongo.insert_one. destruct (dict_get "_id" o) as [i|] eqn:Hi;
    [| discriminate].
  destruct (existsb (Mongo.has_id i) c) eqn:He; [| discriminate].
  intros _. right. eauto.
Qed.

(** What the step does with a file that is no candidate: nothing to the
    collection. *)
Lemma process_other_file {C : Type} `{Collection C}
    (skip_duplicate_check : value) (root : string) (f : file)
    (st st' : state C) :
  candidate f = None ->
  process_file skip_duplicate_check root f st = Ok st' ->
  same_store st st'.
Proof.
  unfold candidate, process_file, try_body, same_store.
  destruct (endswith (filename f) ".json"); [| now intros _ [= <-]].
  destruct (open_raises f); [discriminate|].
  destruct (load f) as [data | msg l k | e]; try (now intros _ [= <-]).
  destruct data; try (destruct (validate study_schema _));
    try (now intros _ [= <-]).
  discriminate.
Qed.

Lemma enhanced_check_valid (file_path : string) (o : dict)
    (c : Mongo.collection) :
  validate study_schema (VDict o) = true ->
  duplicate_check (VBool false) file_path o c
  = match find (Mongo.matches (enhanced_query o)) c with
    | Some d =>
        Ok (Some {| dup_file := file_path;
                    dup_reason :=
                      if query_mem "doi" (enhanced_query o)
                      then "doi+dataset" else "title+dataset";
                    dup_value := reported_value o;
                    dup_existing_id := Mongo.doc_id d |})
    | None => Ok None
    end.
Proof.
  intros Hv. rewrite enhanced_check_mongo.
  destruct (enhanced_query_valid o Hv) as [Hq _].
  destruct (enhanced_query o); [discriminate | reflexivity].
Qed.

(** What the enhanced step does with a candidate, over MongoDB. *)
Lemma process_candidate (root : string) (f : file) (o : dict)
    (st : state Mongo.collection) :
  candidate f = Some o ->
  exists st', process_file (VBool false) root f st = Ok st'
    /\ (has_named_dataset o = true -> settled o (collection st'))
    /\ (exists x, collection st' = collection st ++ x)
    /\ (settled o (collection st) -> same_store st st').
Proof.
  unfold candidate, process_file, try_body.
  destruct (endswith (filename f) ".json"); [| discriminate].
  destruct (open_raises f); [discriminate|].
  destruct (load f) as [[| | | | | |o'|] | |]; try discriminate.
  destruct (validate study_schema (VDict o')) eqn:Hv; [| discriminate].
  intros [= ->]. rewrite (enhanced_check_valid _ _ _ Hv).
  destruct (find (Mongo.matches (enhanced_query o)) (collection st))
    as [d|] eqn:Hf.
  - eexists. split; [reflexivity|]. simpl.
    apply find_some in Hf.
    split; [| split].
    + intros _. left. eauto.
    + exists []. now rewrite app_nil_r.
    + intros _. split; reflexivity.
  - cbn [insert_one mongo_collection].
    destruct (Mongo.insert_one (VDict o) (collection st)) as [c'|e] eqn:Hi.
    + eexists. split; [reflexivity|]. simpl. split; [| split].
      * intros Hn. now destruct (insert_one_settles o _ _ Hv Hn Hi).
      * unfold Mongo.insert_one in Hi.
        destruct (dict_get "_id" o);
          [destruct (existsb _ _); [discriminate|] |];
          injection Hi as <-; eauto.
      * intros [(d & Hin & Hm) | Hid]; exfalso.
        -- pose proof (find_none _ _ Hf d Hin). congruence.
        -- destruct (insert_one_refused o _ Hid). congruence.
    + eexists. split; [reflexivity|]. simpl. split; [| split].
      * intros _. eapply insert_one_raises_settled; eauto.
      * exists []. now rewrite app_nil_r.
      * intros _. split; reflexivity.
Qed.

Lemma process_file_raises {C : Type} `{Collection C}
    (skip_duplicate_check : value) (root : string) (f : file)
    (st : state C) (e : exn) :
  process_file skip_duplicate_check root f st = Raise e
  <-> endswith (filename f) ".json" = true /\ open_raises f = Some e.
Proof.
  unfold process_file.
  destruct (endswith (filename f) ".json"), (open_raises f); split;
    try discriminate; try (intros [? ?]; discriminate).
  - intros [= ->]. auto.
  - intros [_ [= ->]]. reflexivity.
Qed.

Lemma process_file_grows (skip_duplicate_check : value) (root : string)
    (f : file) (st st' : state Mongo.collection) :
  process_file skip_duplicate_check root f st = Ok st' ->
  exists x, collection st' = collection st ++ x.
Proof.
  intros Hp.
  destruct (process_file_cases _ _ _ _ _ Hp)
    as [-> | [(data & _ & _ & ->) | [(o & entry & _ & _ & _ & ->)
       | [(o & c' & _ & _ & _ & Hi & ->) | (entry & ->)]]]];
    simpl; try (exists []; now rewrite app_nil_r).
  cbn [insert_one mongo_collection] in Hi. unfold Mongo.insert_one in Hi.
  destruct (dict_get "_id" o);
    [destruct (existsb _ _); [discriminate|] |];
    injection Hi as <-; eauto.
Qed.

Lemma process_entries_grows (skip_duplicate_check : value)
    (es : list (string * file)) (st : state Mongo.collection) :
  exists x,
    collection (fst (process_entries skip_duplicate_check es st))
    = collection st ++ x.
Proof.
  revert st. induction es as [|[root f] es IH]; intros st; simpl.
  - exists []. now rewrite app_nil_r.
  - destruct (process_file skip_duplicate_check root f st) as [st'|e] eqn:Hp;
      simpl.
    + destruct (process_file_grows _ _ _ _ _ Hp) as [x Hx].
      destruct (IH st') as [y Hy]. exists (x ++ y).
      now rewrite Hy, Hx, app_assoc.
    + exists []. now rewrite app_nil_r.
Qed.

Lemma same_store_refl {C : Type} (st : state C) : same_store st st.
Proof. split; reflexivity. Qed.

Lemma same_store_trans {C : Type} (a b c : state C) :
  same_store a b -> same_store b c -> same_store a c.
Proof. intros [H1 H2] [H3 H4]. split; congruence. Qed.

Lemma candidate_some (f : file) (o : dict) :
  candidate f = Some o ->
  load f = Decoded (VDict o) /\ validate study_schema (VDict o) = true.
Proof.
  unfold candidate.
  destruct (endswith (filename f) ".json"); [| discriminate].
  destruct (open_raises f); [discriminate|].
  destruct (load f) as [[| | | | | |o'|] | |]; try discriminate.
  destruct (validate study_schema (VDict o')) eqn:Hv; [| discriminate].
  intros [= ->]. auto.
Qed.

(** The second pass: over a store that holds what a first pass over the
    same files left, the enhanced check lets no file through to
    [insert_one] with success. *)
Lemma second_pass (es : list (string * file)) :
  (forall root f o, In (root, f) es -> candidate f = Some o ->
                    has_named_dataset o = true) ->
  forall (st1 st2 : state Mongo.collection) (x : Mongo.collection),
    collection st2
    = collection (fst (process_entries (VBool false) es st1)) ++ x ->
    same_store st2 (fst (process_entries (VBool false) es st2)).
Proof.
  induction es as [|[root f] es IH]; intros Hnamed st1 st2 x Hx; simpl in *.
  - apply same_store_refl.
  - destruct (process_file (VBool false) root f st1) as [st1a|e1] eqn:P1.
    + destruct (process_file (VBool false) root f st2) as [st2a|e2] eqn:P2.
      * assert (Hstep : same_store st2 st2a).
        { destruct (candidate f) as [o|] eqn:Cf.
          - destruct (process_candidate root f o st1 Cf)
              as (s & Hs & Hset & _ & _).
            rewrite P1 in Hs. injection Hs as <-.
            destruct (process_candidate root f o st2 Cf)
              as (s2 & Hs2 & _ & _ & Hsame).
            rewrite P2 in Hs2. injection Hs2 as <-.
            apply Hsame. rewrite Hx.
            destruct (process_entries_grows (VBool false) es st1a) as [y ->].
            do 2 apply settled_app. apply Hset.
            eapply Hnamed; eauto.
          - eapply process_other_file; eauto. }
        eapply same_store_trans; [exact Hstep|].
        apply (IH (fun r g o Hin => Hnamed r g o (or_intror Hin)) st1a st2a x).
        destruct Hstep as [-> _]. exact Hx.
      * apply process_file_raises in P2.
        apply (process_file_raises (VBool false) root f st1) in P2.
        congruence.
    + apply process_file_raises in P1.
      apply (process_file_raises (VBool false) root f st2) in P1.
      rewrite P1. apply same_store_refl.
Qed.

(** C2, as the code has it.  Under the enhanced setting (menu answer
    ["2"]), when every record of the folder that validates carries a
    [dataset] list with an entry named by a string, a second run over the
    same folder, on the collection the first run left, inserts nothing. *)
Theorem second_enhanced_run_inserts_nothing (folder_path : folder)
    (c : Mongo.collection) :
  (forall root f o, In (root, f) (folder_files folder_path) ->
                    load f = Decoded (VDict o) ->
                    validate study_schema (VDict o) = true ->
                    has_named_dataset o = true) ->
  inserted (import_json_studies folder_path "2"
              (store_after (import_json_studies folder_path "2" c) c))
  = 0.
Proof.
  intros Hnamed. destruct folder_path as [|w]; [reflexivity|].
  unfold import_json_studies.
  change (skip_duplicate_check_of "2") with (VBool false).
  rewrite !process_walk_entries.
  assert (Hn : forall root f o, In (root, f) (walk_files w) ->
                 candidate f = Some o -> has_named_dataset o = true).
  { intros root f o Hin Hc. destruct (candidate_some f o Hc).
    eapply Hnamed; eauto. }
  pose proof (second_pass (walk_files w) Hn (initial_state c)) as Hp.
  destruct (process_entries (VBool false) (walk_files w) (initial_state c))
    as [st1 oe1] eqn:E1.
  assert (Hc1 : store_after
                  match oe1 with
                  | Some e => Aborted e st1
                  | None => Completed st1 (save_reports st1)
                  end c = collection st1) by now destruct oe1.
  rewrite Hc1.
  specialize (Hp (initial_state (collection st1)) []).
  simpl in Hp. rewrite app_nil_r in Hp. specialize (Hp eq_refl).
  destruct (process_entries (VBool false) (walk_files w)
              (initial_state (collection st1))) as [st2 oe2].
  destruct Hp as [_ Hi]. simpl in Hi.
  now destruct oe2.
Qed.

Lemma second_enhanced_run_inserts_nothing_witness :
  let dir :=
    Directory
      [("studies",
        [json_file "a.json"
           (study "10.1/x" "T"
              [("dataset", VList [VDict [("name", VStr "A")]])])])] in
  inserted (import_json_studies dir "2"
              (store_after (import_json_studies dir "2" []) []))
  = 0.
Proof.
  apply (second_enhanced_run_inserts_nothing
           (Directory
              [("studies",
                [json_file "a.json"
                   (study "10.1/x" "T"
                      [("dataset", VList [VDict [("name", VStr "A")]])])])])
           []).
  intros root f o Hin Hl Hv. simpl in Hin.
  destruct Hin as [E | []]. injection E as <- <-.
  simpl in Hl. injection Hl as <-. reflexivity.
Defined.

(** C2, as the spec states it, fails.  One valid file with no [dataset]
    field, an empty collection: the second run inserts the record again,
    under the enhanced setting (answer ["2"]: the stored copy has no
    [dataset.name]) and under the basic one (answer ["3"]: the check is
    skipped). *)
Lemma second_run_inserts_again :
  let dir :=
    Directory [("studies", [json_file "a.json" (study "10.1/x" "T" [])])] in
  inserted (import_json_studies dir "2"
              (store_after (import_json_studies dir "2" []) []))
  = 1
  /\ inserted (import_json_studies dir "3"
                 (store_after (import_json_studies dir "3" []) []))
     = 1.
Proof. split; vm_compute; reflexivity. Qed.

(* ================================================================== *)
(** ** Runs on concrete folders *)

Lemma no_primary_key_no_lookup_witness :
  duplicate_check (C := Mongo.collection) (VBool false) "studies/a.json"
    [("study_id", VStr "S1")] [stored_XA]
  = Ok None.
Proof.
  exact (proj2 (proj2 (no_primary_key_no_lookup (C := Mongo.collection)
                         (VBool false) "studies/a.json"
                         [("study_id", VStr "S1")] [stored_XA]
                         eq_refl eq_refl))).
Defined.

(** C5 on the code.  The collection holds a record with doi X; the folder
    holds one file with doi X; the answer is ["3"] (basic detection).
    The file is inserted, not skipped: ["basic"] is a truthy value, so
    line 203 skips the whole check. *)
Lemma basic_mode_inserts_known_doi :
  let stored := Mongo.Doc (VObjectId 1) (study "X" "T" []) in
  let dir :=
    Directory [("studies", [json_file "a.json" (study "X" "T" [])])] in
  exists st,
    import_json_studies dir "3" [stored] = Completed st []
    /\ count_inserted st = 1 /\ count_skipped st = 0
    /\ List.length (collection st) = 2.
Proof. eexists. split; [vm_compute; reflexivity | auto]. Qed.

(** C4 on the code.  [a.json] cannot be opened; [b.json] is a valid
    record.  The exception of [open] leaves the function: nothing is
    recorded for [a.json], [b.json] is not visited, no report is
    written. *)
Lemma open_failure_aborts_run :
  import_json_studies (C := Mongo.collection)
    (Directory
       [("studies",
         [{| filename := "a.json";
             open_raises := Some (Exn "PermissionError" "Permission denied");
             load := Decoded (VDict (study "10.1/x" "T" [])) |};
          json_file "b.json" (study "10.2/y" "U" [])])])
    "1" []
  = Aborted (Exn "PermissionError" "Permission denied") (initial_state []).
Proof. reflexivity. Qed.

Lemma disabled_outcome_witness :
  same_outcome
    (process_file (C := Mongo.collection) (skip_duplicate_check_of "1")
       "studies" (json_file "a.json" (study "10.1/x" "T" []))
       (initial_state []))
    (process_file (C := Mongo.collection) (skip_duplicate_check_of "1")
       "studies" (json_file "a.json" (study "10.1/x" "T" []))
       (initial_state [stored_XA])).
Proof.
  apply (proj2 (disabled_outcome_depends_on_insert_alone
                  (H1 := mongo_collection) (H2 := mongo_collection)
                  "studies" (json_file "a.json" (study "10.1/x" "T" []))
                  (initial_state []) (initial_state [stored_XA])
                  eq_refl
                  ltac:(intros data Hl; injection Hl as <-; exact I))).
Defined.

(** C8, as the spec states it, fails.  The file brings its own [_id];
    over the empty collection it is inserted, over a collection where
    that [_id] is taken [insert_one] raises and the file ends as a load
    error: the outcome of the file differs with the store. *)
Lemma disabled_outcome_varies_with_store :
  let f := json_file "a.json" (study "10.1/x" "T" [("_id", VStr "abc")]) in
  let taken := Mongo.Doc (VStr "abc") [("note", VStr "other")] in
  let on_empty :=
    process_file (C := Mongo.collection) (skip_duplicate_check_of "1")
      "studies" f (initial_state []) in
  let on_taken :=
    process_file (C := Mongo.collection) (skip_duplicate_check_of "1")
      "studies" f (initial_state [taken]) in
  (exists s1 s2, on_empty = Ok s1 /\ on_taken = Ok s2
                 /\ count_inserted s1 = 1 /\ count_load_errors s1 = 0
                 /\ count_inserted s2 = 0 /\ count_load_errors s2 = 1)
  /\ ~ same_outcome on_empty on_taken.
Proof.
  split.
  - do 2 eexists. split; [vm_compute; reflexivity|].
    split; [vm_compute; reflexivity|]. auto.
  - vm_compute. discriminate.
Qed.

Lemma reports_written_witness :
  let dir :=
    Directory
      [("studies",
        [json_file "a.json" (study "10.1/x" "T" []);
         {| filename := "b.json"; open_raises := None;
            load := JSONDecodeError "Expecting value" 1 1 |}])] in
  exists st written,
    import_json_studies (C := Mongo.collection) dir "2" []
    = Completed st written
    /\ In "load_error_report.json" (map fst written)
    /\ ~ In "duplicate_report.json" (map fst written).
Proof.
  pose proof (reports_written_iff_nonempty (C := Mongo.collection)
                (Directory
                   [("studies",
                     [json_file "a.json" (study "10.1/x" "T" []);
                      {| filename := "b.json"; open_raises := None;
                         load := JSONDecodeError "Expecting value" 1 1 |}])])
                "2" [] _ _ eq_refl) as (Hd & _ & Hl & _).
  do 2 eexists. split; [reflexivity|]. split.
  - apply Hl. discriminate.
  - intros Hin. apply Hd in Hin. now apply Hin.
Defined.

(* ================================================================== *)
(** ** Further properties of the run *)

Section RunFacts.

Context {C : Type} `{Collection C}.

Lemma process_entries_counters (skip_duplicate_check : value)
    (es : list (string * file)) (st : state C) :
  counters_agree st ->
  counters_agree (fst (process_entries skip_duplicate_check es st)).
Proof.
  revert st. induction es as [|[root f] es IH]; intros st Hc; simpl; auto.
  destruct (process_file skip_duplicate_check root f st) as [st'|e] eqn:Hp;
    simpl; auto.
  apply IH. eapply process_file_counters; eauto.
Qed.

(** X3.  However a run ends, each counter but the insert counter is the
    length of its report list. *)
Theorem run_counters_agree (folder_path : folder) (dup_choice : string)
    (c : C) :
  match end_state (import_json_studies folder_path dup_choice c) with
  | Some st => counters_agree st
  | None => True
  end.
Proof.
  unfold import_json_studies. destruct folder_path as [|w]; simpl; auto.
  rewrite process_walk_entries.
  pose proof (process_entries_counters (skip_duplicate_check_of dup_choice)
                (walk_files w) (initial_state c)) as Hc.
  destruct (process_entries _ (walk_files w) (initial_state c))
    as [st [e|]]; simpl in *; apply Hc; repeat split.
Qed.

Lemma process_entries_open (skip_duplicate_check : value)
    (es : list (string * file)) (st : state C) :
  (forall root f, In (root, f) es ->
                  endswith (filename f) ".json" = true ->
                  open_raises f = None) ->
  exists st', process_entries skip_duplicate_check es st = (st', None)
              /\ files_counted st'
                 = files_counted st + List.length (filter is_json es).
Proof.
  revert st. induction es as [|[root f] es IH]; intros st Ho; simpl.
  - exists st. split; [reflexivity | lia].
  - unfold is_json at 1. cbn [snd].
    destruct (endswith (filename f) ".json") eqn:Hj.
    + destruct (opened_file_is_counted skip_duplicate_check root f st Hj)
        as (st1 & Hp & Hn); [apply (Ho root f); [now left | exact Hj] |].
      rewrite Hp.
      destruct (IH st1) as (st' & He & Hc);
        [intros r g Hin; apply (Ho r g); now right|].
      exists st'. split; [exact He|]. simpl. lia.
    + assert (Hp : process_file skip_duplicate_check root f st = Ok st).
      { unfold process_file. now rewrite Hj. }
      rewrite Hp.
      destruct (IH st) as (st' & He & Hc);
        [intros r g Hin; apply (Ho r g); now right|].
      exists st'. split; [exact He | exact Hc].
Qed.

(** X1.  When every [.json] file of the folder can be opened, the run reaches
    its end whatever else goes wrong in the files or in the store, and
    the four counters add up to the number of [.json] files. *)
Theorem run_completes_when_files_open (w : walk) (dup_choice : string)
    (c : C) :
  (forall root f, In (root, f) (walk_files w) ->
                  endswith (filename f) ".json" = true ->
                  open_raises f = None) ->
  exists st, import_json_studies (Directory w) dup_choice c
             = Completed st (save_reports st)
             /\ files_counted st = List.length (filter is_json (walk_files w)).
Proof.
  intros Ho. unfold import_json_studies. rewrite process_walk_entries.
  destruct (process_entries_open (skip_duplicate_check_of dup_choice)
              (walk_files w) (initial_state c) Ho) as (st & -> & Hc).
  exists st. split; [reflexivity | exact Hc].
Qed.

End RunFacts.

Lemma run_completes_when_files_open_witness :
  exists st,
    import_json_studies (C := Mongo.collection)
      (Directory
         [("studies",
           [json_file "a.json" (study "10.1/x" "T" []);
            {| filename := "b.json"; open_raises := None;
               load := LoadRaises (Exn "UnicodeDecodeError" "invalid byte") |};
            {| filename := "notes.txt";
               open_raises := Some (Exn "PermissionError" "denied");
               load := LoadRaises (Exn "PermissionError" "denied") |}])])
      "2" []
    = Completed st (save_reports st)
    /\ files_counted st = 2.
Proof.
  apply (run_completes_when_files_open (C := Mongo.collection)
           [("studies",
             [json_file "a.json" (study "10.1/x" "T" []);
              {| filename := "b.json"; open_raises := None;
                 load := LoadRaises
                           (Exn "UnicodeDecodeError" "invalid byte") |};
              {| filename := "notes.txt";
                 open_raises := Some (Exn "PermissionError" "denied");
                 load := LoadRaises (Exn "PermissionError" "denied") |}])]
           "2" []).
  intros root f Hin Hj. simpl in Hin.
  destruct Hin as [E | [E | [E | []]]]; injection E as <- <-;
    [reflexivity | reflexivity | discriminate Hj].
Defined.

(** X4.  The [results] schema accepts a mapping exactly when each of its
    values is a number, a string or null. *)
Theorem results_accept_exactly_scalars (r : dict) :
  validate results_schema (VDict r) = true
  <-> forall k x, In (k, x) r -> is_scalar x = true.
Proof.
  rewrite validate_results, forallb_forall. split.
  - intros Hr k x Hin. apply (Hr (k, x) Hin).
  - intros Hr [k x] Hin. apply (Hr k x Hin).
Qed.

(** The schema reads none of its fields under the key [_id]: two records
    that agree on every other key validate alike. *)
Lemma validate_study_ext (o1 o2 : dict) :
  (forall k, k <> "_id" -> dict_get k o1 = dict_get k o2) ->
  validate study_schema (VDict o1) = validate study_schema (VDict o2).
Proof.
  intros Hk. unfold study_schema.
  rewrite !validate_open_object by discriminate.
  unfold dict_mem. cbn [forallb fst snd].
  rewrite !Hk by discriminate. reflexivity.
Qed.

Lemma inserted_document_conforms (o : dict) (c c' : Mongo.collection) :
  validate study_schema (VDict o) = true ->
  Mongo.insert_one (VDict o) c = Ok c' ->
  exists d, c' = c ++ [d] /\ conforming d.
Proof.
  intros Hv. unfold Mongo.insert_one, conforming.
  destruct (dict_get "_id" o) as [i|] eqn:Hi.
  - destruct (existsb (Mongo.has_id i) c); [discriminate|].
    intros [= <-]. eexists. split; [reflexivity|].
    rewrite <- Hv. apply validate_study_ext. intros k Hk.
    cbn [Mongo.as_dict Mongo.doc_id Mongo.doc_fields dict_get].
    apply String.eqb_neq in Hk. rewrite Hk.
    apply dict_get_without_id. now apply String.eqb_neq.
  - intros [= <-]. eexists. split; [reflexivity|].
    rewrite <- Hv. apply validate_study_ext. intros k Hk.
    cbn [Mongo.as_dict Mongo.doc_id Mongo.doc_fields dict_get].
    apply String.eqb_neq in Hk. now rewrite Hk.
Qed.

Lemma validated_inserts_conform (skip_duplicate_check : value)
    (c c' : Mongo.collection) :
  validated_inserts skip_duplicate_check c c' ->
  exists added, c' = c ++ added /\ Forall conforming added.
Proof.
  induction 1 as [c | c c' c'' file_path o _ IH Hv _ Hi].
  - exists []. split; [now rewrite app_nil_r | constructor].
  - destruct IH as (added & -> & Hall).
    destruct (inserted_document_conforms o _ _ Hv Hi) as (d & -> & Hd).
    exists (added ++ [d]). split; [now rewrite app_assoc|].
    apply Forall_app. split; [exact Hall | now constructor].
Qed.

(** X5.  Over MongoDB a run only appends to the collection, and every
    document it appends conforms to the study schema. *)
Theorem run_appends_conforming_documents (folder_path : folder)
    (dup_choice : string) (c : Mongo.collection) :
  exists added,
    store_after (import_json_studies folder_path dup_choice c) c = c ++ added
    /\ Forall conforming added.
Proof.
  apply (validated_inserts_conform (skip_duplicate_check_of dup_choice)).
  unfold import_json_studies.
  destruct folder_path as [|w]; simpl; [constructor|].
  pose proof (process_walk_inserts (skip_duplicate_check_of dup_choice) w
                (initial_state c) c (no_insert _ c)) as Hw.
  destruct (process_walk _ w (initial_state c)) as [st [e|]]; exact Hw.
Qed.

Lemma only_choice_2_checks_witness :
  duplicate_check (C := Mongo.collection) (skip_duplicate_check_of "3")
    "studies/a.json" (study "X" "T" []) [stored_XA]
  = Ok None.
Proof.
  apply (only_choice_2_checks (C := Mongo.collection) "3" "studies/a.json"
           (study "X" "T" []) [stored_XA]).
  discriminate.
Defined.

(* ================================================================== *)
(** ** The health check *)

Lemma check_walk_entries (w : walk) (st : health_state) :
  check_walk w st = check_entries (walk_files w) st.
Proof.
  revert st. induction w as [|[root files] w IH]; intros st; [reflexivity|].
  simpl. revert st. induction files as [|f files IHf]; intros st; simpl.
  - apply IH.
  - apply IHf.
Qed.

Lemma check_one_accounts (file_path : string) (f : file)
    (st : health_state) :
  total_files (check_one file_path f st) = S (total_files st)
  /\ valid_files (check_one file_path f st)
     + List.length (problematic_files (check_one file_path f st))
     = S (valid_files st + List.length (problematic_files st))
  /\ valid_files st <= valid_files (check_one file_path f st).
Proof.
  unfold check_one.
  assert (Hp : forall entry,
             total_files (add_problem entry st) = S (total_files st)
             /\ valid_files (add_problem entry st)
                + List.length (problematic_files (add_problem entry st))
                = S (valid_files st + List.length (problematic_files st))
             /\ valid_files st <= valid_files (add_problem entry st)).
  { intros entry. simpl. rewrite length_app. simpl. repeat split; lia. }
  destruct (open_raises f); [apply Hp|].
  destruct (load f) as [data | |]; try apply Hp.
  destruct (missing_fields_of health_fields data) as [[|m ms]|];
    try apply Hp.
  simpl. repeat split; lia.
Qed.

Lemma check_entries_accounts (es : list (string * file))
    (st : health_state) :
  total_files (check_entries es st)
  = total_files st + List.length (filter is_json es)
  /\ valid_files (check_entries es st)
     + List.length (problematic_files (check_entries es st))
     = valid_files st + List.length (problematic_files st)
       + List.length (filter is_json es).
Proof.
  revert st. induction es as [|[root f] es IH]; intros st;
    cbn [check_entries filter].
  - cbn [List.length]. split; lia.
  - change (is_json (root, f)) with (endswith (filename f) ".json").
    destruct (endswith (filename f) ".json").
    + destruct (check_one_accounts (path_join root (filename f)) f st)
        as (Ht & Hv & _).
      destruct (IH (check_one (path_join root (filename f)) f st))
        as [Ht' Hv'].
      cbn [List.length]. split; lia.
    + apply IH.
Qed.

(** X6.  The scan accounts for every [.json] file under the folder, whatever
    is wrong with it: [total_files] is their number, and each is counted
    valid or listed as a problem, not both. *)
Theorem health_check_accounts_for_every_file (fs : string -> folder)
    (folder_path : option string) (typed : string) :
  match check_file_health fs folder_path typed with
  | HealthFolderMissing =>
      fs (health_path folder_path typed) = NotADirectory
  | HealthDone st _ =>
      exists w, fs (health_path folder_path typed) = Directory w
                /\ total_files st = List.length (filter is_json (walk_files w))
                /\ total_files st
                   = valid_files st + List.length (problematic_files st)
  end.
Proof.
  unfold check_file_health.
  destruct (fs (health_path folder_path typed)) as [|w]; [reflexivity|].
  exists w. split; [reflexivity|].
  rewrite check_walk_entries.
  destruct (check_entries_accounts (walk_files w)
              {| total_files := 0; valid_files := 0;
                 problematic_files := [] |}) as [Ht Hv].
  simpl in *. lia.
Qed.

(** X7.  The health report is written exactly when some [.json] file was not
    counted valid, and then it holds the whole problem list. *)
Theorem health_report_iff_some_file_unhealthy (fs : string -> folder)
    (folder_path : option string) (typed : string) (st : health_state)
    (report : option (list health_issue)) :
  check_file_health fs folder_path typed = HealthDone st report ->
  (report = None <-> valid_files st = total_files st)
  /\ (forall l, report = Some l -> l = problematic_files st /\ l <> []).
Proof.
  unfold check_file_health.
  destruct (fs (health_path folder_path typed)) as [|w]; [discriminate|].
  rewrite check_walk_entries.
  destruct (check_entries_accounts (walk_files w)
              {| total_files := 0; valid_files := 0;
                 problematic_files := [] |}) as [Ht Hv].
  simpl in Ht, Hv. intros [= <- <-].
  destruct (problematic_files _) as [|p ps] eqn:Hp; simpl in *.
  - split; [split; [intros _; lia | reflexivity] | discriminate].
  - split; [split; [discriminate | intros E; exfalso; lia] |].
    intros l [= <-]. split; [reflexivity | discriminate].
Qed.

Lemma missing_fields_of_dict (required : list string) (o : dict) :
  missing_fields_of required (VDict o)
  = Ok (filter (fun k => negb (dict_mem k o)) required).
Proof.
  induction required as [|k required IH]; [reflexivity|].
  cbn [missing_fields_of contains bind filter]. rewrite IH. simpl.
  now destruct (dict_mem k o).
Qed.

(** X8.  For a file that decodes to an object the scan reads the four fields
    [title], [year], [doi], [ml_approaches] and nothing else: the file is
    counted valid when all four are keys of the object, and is otherwise
    listed with exactly the absent ones, in that order. *)
Theorem health_of_object (file_path : string) (f : file) (o : dict)
    (st : health_state) :
  open_raises f = None -> load f = Decoded (VDict o) ->
  check_one file_path f st
  = if forallb (fun k => dict_mem k o) health_fields
    then add_valid st
    else add_problem
           {| issue_file := file_path; issue := "Missing required fields";
              details :=
                MissingFields
                  (filter (fun k => negb (dict_mem k o)) health_fields) |}
           st.
Proof.
  intros Ho Hl. unfold check_one. rewrite Ho, Hl, missing_fields_of_dict.
  unfold health_fields. cbn [filter forallb].
  destruct (dict_mem "title" o), (dict_mem "year" o), (dict_mem "doi" o),
    (dict_mem "ml_approaches" o); reflexivity.
Qed.

(** X9.  A file that decodes to [null], a boolean or a number is no container:
    the first membership test raises, and the file is listed with the
    issue [TypeError], not with missing fields. *)
Theorem health_of_scalar_is_type_error (file_path : string) (f : file)
    (data : value) (st : health_state) :
  open_raises f = None -> load f = Decoded data ->
  match data with VStr _ | VList _ | VDict _ => False | _ => True end ->
  check_one file_path f st
  = add_problem
      {| issue_file := file_path; issue := "TypeError";
         details :=
           Message ("argument of type '" ++ type_name data
                    ++ "' is not iterable") |} st.
Proof.
  intros Ho Hl Hd. unfold check_one. rewrite Ho, Hl.
  destruct data; try contradiction; reflexivity.
Qed.

(* ================================================================== *)
(** ** The health check and the import over one folder *)

(** A record that validates has the four fields the scan looks for. *)
Lemma candidate_is_healthy (file_path : string) (f : file) (o : dict)
    (st : health_state) :
  candidate f = Some o -> check_one file_path f st = add_valid st.
Proof.
  intros Hc. destruct (candidate_some f o Hc) as [Hl Hv].
  assert (Ho : open_raises f = None).
  { unfold candidate in Hc.
    destruct (endswith (filename f) ".json"); [| discriminate].
    now destruct (open_raises f). }
  unfold check_one. rewrite Ho, Hl, missing_fields_of_dict.
  unfold health_fields. cbn [filter].
  rewrite !(validate_required _ _ _ _ _ _ _ o _ Hv) by in_list.
  reflexivity.
Qed.

Lemma check_entries_candidates (es : list (string * file))
    (st : health_state) :
  valid_files st + List.length (filter is_candidate es)
  <= valid_files (check_entries es st).
Proof.
  revert st. induction es as [|[root f] es IH]; intros st;
    cbn [check_entries filter].
  - cbn [List.length]. lia.
  - unfold is_candidate at 1. cbn [snd].
    destruct (candidate f) as [o|] eqn:Hc.
    + assert (Hj : endswith (filename f) ".json" = true).
      { unfold candidate in Hc.
        now destruct (endswith (filename f) ".json"). }
      rewrite Hj, (candidate_is_healthy _ f o st Hc).
      specialize (IH (add_valid st)). cbn [List.length].
      simpl in IH. lia.
    + destruct (endswith (filename f) ".json").
      * destruct (check_one_accounts (path_join root (filename f)) f st)
          as (_ & _ & Hle).
        specialize (IH (check_one (path_join root (filename f)) f st)). lia.
      * apply IH.
Qed.

Section ImportCounts.

Context {C : Type} `{Collection C}.

Lemma process_file_candidate_count (skip_duplicate_check : value)
    (root : string) (f : file) (st st' : state C) :
  process_file skip_duplicate_check root f st = Ok st' ->
  count_inserted st' + count_skipped st'
  <= count_inserted st + count_skipped st
     + (if is_candidate (root, f) then 1 else 0).
Proof.
  unfold is_candidate, candidate, process_file, try_body. cbn [snd].
  destruct (endswith (filename f) ".json"); [| intros [= <-]; lia].
  destruct (open_raises f); [discriminate|].
  destruct (load f) as [data | |]; try solve [intros [= <-]; simpl; lia].
  destruct data as [| | | | | |o|];
    try solve [destruct (validate study_schema _);
               intros [= <-]; simpl; lia].
  destruct (validate study_schema (VDict o));
    [| intros [= <-]; simpl; lia].
  destruct (duplicate_check _ _ _ _) as [[entry|]|e];
    try solve [intros [= <-]; simpl; lia].
  destruct (insert_one (VDict o) (collection st));
    intros [= <-]; simpl; lia.
Qed.

Lemma process_entries_candidates (skip_duplicate_check : value)
    (es : list (string * file)) (st : state C) :
  count_inserted (fst (process_entries skip_duplicate_check es st))
  + count_skipped (fst (process_entries skip_duplicate_check es st))
  <= count_inserted st + count_skipped st
     + List.length (filter is_candidate es).
Proof.
  revert st. induction es as [|[root f] es IH]; intros st;
    cbn [process_entries filter].
  - cbn [fst List.length]. lia.
  - destruct (process_file skip_duplicate_check root f st) as [st'|e] eqn:Hp.
    + pose proof (process_file_candidate_count _ _ _ _ _ Hp) as Hc.
      specialize (IH st').
      destruct (is_candidate (root, f)); cbn [List.length] in *; lia.
    + cbn [fst]. lia.
Qed.

(** X10.  Every file the import inserts or skips as a duplicate is a file the
    health check counts valid: over the same folder, whatever the store
    and the menu answer, and however the import ends, its inserted and
    skipped counts together never exceed the scan's [valid_files]. *)
Theorem import_handles_only_healthy_files (fs : string -> folder)
    (path dup_choice : string) (c : C) (st : state C)
    (hst : health_state) (report : option (list health_issue)) :
  end_state (import_json_studies (fs path) dup_choice c) = Some st ->
  check_file_health fs None path = HealthDone hst report ->
  count_inserted st + count_skipped st <= valid_files hst.
Proof.
  unfold import_json_studies, check_file_health. cbn [health_path].
  destruct (fs path) as [|w]; [discriminate|].
  rewrite process_walk_entries, check_walk_entries.
  pose proof (process_entries_candidates (skip_duplicate_check_of dup_choice)
                (walk_files w) (initial_state c)) as Hi.
  pose proof (check_entries_candidates (walk_files w)
                {| total_files := 0; valid_files := 0;
                   problematic_files := [] |}) as Hh.
  destruct (process_entries _ (walk_files w) (initial_state c))
    as [st0 [e|]]; cbn [end_state fst] in *;
    intros [= <-] [= <- _]; simpl in Hi, Hh; lia.
Qed.

Lemma process_entries_raises (skip_duplicate_check : value)
    (es : list (string * file)) (st : state C) :
  snd (process_entries skip_duplicate_check es st) = first_open_failure es.
Proof.
  unfold first_open_failure.
  revert st. induction es as [|[root f] es IH]; intros st;
    cbn [process_entries find]; [reflexivity|].
  unfold cannot_open at 1, is_json. cbn [snd].
  destruct (process_file skip_duplicate_check root f st) as [st'|e] eqn:Hp.
  - assert (Hn : endswith (filename f) ".json"
                 && match open_raises f with Some _ => true | None => false end
                 = false).
    { destruct (endswith (filename f) ".json") eqn:Hj; [| reflexivity].
      destruct (open_raises f) as [e|] eqn:Ho; [| reflexivity].
      assert (Hr : process_file skip_duplicate_check root f st = Raise e)
        by (apply process_file_raises; auto).
      congruence. }
    rewrite Hn. apply IH.
  - apply process_file_raises in Hp. destruct Hp as [Hj Ho].
    rewrite Hj, Ho. cbn [andb snd]. now rewrite Ho.
Qed.

(** X11.  When the import is abandoned: an exception leaves
    [import_json_studies] exactly when some [.json] file under the folder
    cannot be opened, and it is the exception of the first such file; in
    every other case the run reaches its end.  Nothing else a file or the
    store does ends the run. *)
Theorem import_aborts_iff_open_fails (w : walk) (dup_choice : string)
    (c : C) :
  match import_json_studies (Directory w) dup_choice c with
  | FolderMissing => False
  | Aborted e _ => first_open_failure (walk_files w) = Some e
  | Completed st written =>
      first_open_failure (walk_files w) = None
      /\ written = save_reports st
  end.
Proof.
  unfold import_json_studies. rewrite process_walk_entries.
  pose proof (process_entries_raises (skip_duplicate_check_of dup_choice)
                (walk_files w) (initial_state c)) as Hr.
  destruct (process_entries _ (walk_files w) (initial_state c))
    as [st [e|]]; cbn [snd] in Hr; auto.
Qed.

(** X12.  When the tool is abandoned: an exception leaves [main] exactly when
    the menu answer is ["1"], the folder exists and one of its [.json]
    files cannot be opened.  The health check and a wrong answer never
    raise, and neither touches the collection. *)
Theorem main_raises_iff_import_open_fails (fs : string -> folder)
    (choice typed_folder dup_choice : string) (c : C) :
  main_raises (main fs choice typed_folder dup_choice c)
  = (if String.eqb choice "1"
     then folder_first_failure (fs typed_folder)
     else None)
  /\ (choice <> "1" ->
      main_store_after (main fs choice typed_folder dup_choice c) c = c).
Proof.
  unfold main. split.
  - destruct (String.eqb choice "1").
    + destruct (fs typed_folder) as [|w]; [reflexivity|].
      cbn [main_raises folder_first_failure].
      unfold import_json_studies. rewrite process_walk_entries.
      pose proof (process_entries_raises
                    (skip_duplicate_check_of dup_choice)
                    (walk_files w) (initial_state c)) as Hr.
      destruct (process_entries _ (walk_files w) (initial_state c))
        as [st [e|]]; cbn [snd] in Hr; now rewrite <- Hr.
    + now destruct (String.eqb choice "2").
  - intros Hne. destruct (String.eqb choice "1") eqn:E.
    + apply String.eqb_eq in E. contradiction.
    + now destruct (String.eqb choice "2").
Qed.

End ImportCounts.

(* ================================================================== *)
(** ** The duplicate report *)

Section DuplicateReport.

Context {C : Type} `{Collection C}.

Lemma falsy_is_not_basic (v : value) :
  truthy v = false -> eq_str v "basic" = false.
Proof.
  destruct v; simpl; auto. intros Ht.
  apply negb_false_iff, String.eqb_eq in Ht. now subst.
Qed.

Lemma falsy_setting_is_choice_2 (dup_choice : string) :
  truthy (skip_duplicate_check_of dup_choice) = false -> dup_choice = "2".
Proof.
  intros Ht. destruct (String.eqb dup_choice "2") eqn:E.
  - now apply String.eqb_eq.
  - apply String.eqb_neq in E.
    rewrite (skip_duplicate_check_truthy dup_choice E) in Ht. discriminate.
Qed.

Lemma duplicate_check_entry (skip_duplicate_check : value)
    (file_path : string) (data : dict) (c : C) (entry : duplicate_entry) :
  duplicate_check skip_duplicate_check file_path data c = Ok (Some entry) ->
  truthy skip_duplicate_check = false
  /\ enhanced_reason (dup_reason entry)
  /\ dup_file entry = file_path.
Proof.
  unfold duplicate_check, enhanced_reason.
  destruct (truthy skip_duplicate_check) eqn:Ht; [discriminate|].
  rewrite (falsy_is_not_basic _ Ht). cbn [negb].
  destruct (enhanced_query data) as [|cl q]; [discriminate|].
  destruct (find_one (cl :: q) c) as [[existing|]|e]; cbn [bind];
    try discriminate.
  destruct (truthy (VDict existing)); [| discriminate].
  destruct (dict_get "_id" existing); [| discriminate].
  intros [= <-]. cbn [dup_reason dup_file].
  repeat split.
  match goal with
  | |- context [if ?b then "doi+dataset" else _] => destruct b; auto
  end.
Qed.

(** What a step of the loop does to the duplicate report. *)
Lemma process_file_duplicates (skip_duplicate_check : value) (root : string)
    (f : file) (st st' : state C) :
  process_file skip_duplicate_check root f st = Ok st' ->
  duplicate_report st' = duplicate_report st
  \/ exists entry,
       duplicate_report st' = duplicate_report st ++ [entry]
       /\ truthy skip_duplicate_check = false
       /\ enhanced_reason (dup_reason entry)
       /\ dup_file entry = entry_path (root, f)
       /\ is_json (root, f) = true.
Proof.
  unfold process_file, try_body, entry_path, is_json. cbn [fst snd].
  destruct (endswith (filename f) ".json"); [| intros [= <-]; auto].
  destruct (open_raises f); [discriminate|].
  destruct (load f) as [data | |]; try solve [intros [= <-]; auto].
  destruct (validate study_schema data); [| intros [= <-]; auto].
  destruct data as [| | | | | |o|]; try solve [intros [= <-]; auto].
  destruct (duplicate_check _ _ o _) as [[entry|]|e] eqn:Hd.
  - intros [= <-]. right. exists entry.
    destruct (duplicate_check_entry _ _ _ _ _ Hd) as (Ht & Hr & Hf).
    cbn [duplicate_report add_duplicate]. auto.
  - destruct (insert_one (VDict o) (collection st)); intros [= <-]; auto.
  - intros [= <-]; auto.
Qed.

Lemma process_entries_duplicates (dup_choice : string)
    (paths : list string) (es : list (string * file)) (st : state C) :
  (forall rf, In rf es -> is_json rf = true -> In (entry_path rf) paths) ->
  Forall (fun entry => dup_choice = "2"
                       /\ enhanced_reason (dup_reason entry)
                       /\ In (dup_file entry) paths)
         (duplicate_report st) ->
  Forall (fun entry => dup_choice = "2"
                       /\ enhanced_reason (dup_reason entry)
                       /\ In (dup_file entry) paths)
         (duplicate_report
            (fst (process_entries (skip_duplicate_check_of dup_choice)
                    es st))).
Proof.
  revert st. induction es as [|[root f] es IH]; intros st Hp Hst;
    cbn [process_entries]; [exact Hst|].
  destruct (process_file (skip_duplicate_check_of dup_choice) root f st)
    as [st'|e] eqn:Hf; [| exact Hst].
  apply IH; [intros rf Hin; apply Hp; now right|].
  destruct (process_file_duplicates _ _ _ _ _ Hf)
    as [-> | (entry & -> & Ht & Hr & Hd & Hj)]; [exact Hst|].
  apply Forall_app. split; [exact Hst|]. constructor; [| constructor].
  repeat split; auto.
  - now apply falsy_setting_is_choice_2.
  - rewrite Hd. apply Hp; [now left | exact Hj].
Qed.

(** X13.  What the duplicate report can hold.  However a run ends, over any
    store: every entry was made under the menu answer ["2"], carries the
    reason ["doi+dataset"] or ["title+dataset"], and names a [.json] file
    of the folder.  The reasons ["doi"] and ["title"] never occur, and
    under any other answer the report stays empty. *)
Theorem duplicate_entries_are_enhanced (folder_path : folder)
    (dup_choice : string) (c : C) :
  match end_state (import_json_studies folder_path dup_choice c) with
  | Some st =>
      Forall (fun entry =>
                dup_choice = "2"
                /\ enhanced_reason (dup_reason entry)
                /\ In (dup_file entry)
                      (map entry_path
                         (filter is_json (folder_files folder_path))))
             (duplicate_report st)
  | None => True
  end.
Proof.
  unfold import_json_studies. destruct folder_path as [|w]; [exact I|].
  rewrite process_walk_entries. cbn [folder_files].
  pose proof (process_entries_duplicates dup_choice
                (map entry_path (filter is_json (walk_files w)))
                (walk_files w) (initial_state c)) as Hd.
  assert (Hall : Forall (fun entry =>
                dup_choice = "2"
                /\ enhanced_reason (dup_reason entry)
                /\ In (dup_file entry)
                      (map entry_path (filter is_json (walk_files w))))
             (duplicate_report
                (fst (process_entries (skip_duplicate_check_of dup_choice)
                        (walk_files w) (initial_state c))))).
  { apply Hd; [| constructor].
    intros rf Hin Hj. apply in_map. apply filter_In. auto. }
  destruct (process_entries _ (walk_files w) (initial_state c))
    as [st [e|]]; exact Hall.
Qed.

(** X14.  A file whose record lacks one of the eight required fields is counted
    invalid: it gets a validation entry, and neither [find_one] nor
    [insert_one] is called for it, whatever the menu answer. *)
Theorem missing_required_field_is_invalid (skip_duplicate_check : value)
    (root : string) (f : file) (o : dict) (k : string) (st : state C) :
  endswith (filename f) ".json" = true -> open_raises f = None ->
  load f = Decoded (VDict o) ->
  In k (schema_required study_schema) -> dict_mem k o = false ->
  validate study_schema (VDict o) = false
  /\ process_file skip_duplicate_check root f st
     = Ok (add_invalid (path_join root (filename f)) st).
Proof.
  intros Hj Ho Hl Hk Hm.
  assert (Hv : validate study_schema (VDict o) = false).
  { destruct (validate study_schema (VDict o)) eqn:Hv; [| reflexivity].
    rewrite (validate_required _ _ _ _ _ _ _ o k Hv Hk) in Hm.
    discriminate. }
  split; [exact Hv|].
  unfold process_file, try_body. now rewrite Hj, Ho, Hl, Hv.
Qed.

End DuplicateReport.

(** X15.  The schema reads the thirteen fields it declares and no other: two
    records that agree on them validate alike.  So an added field, such
    as the [dataset] the enhanced check reads, is never checked. *)
Theorem undeclared_fields_are_not_validated (o1 o2 : dict) :
  (forall k, In k (map fst (schema_properties study_schema)) ->
             dict_get k o1 = dict_get k o2) ->
  validate study_schema (VDict o1) = validate study_schema (VDict o2).
Proof.
  intros Hk. unfold study_schema.
  rewrite !validate_open_object by discriminate.
  unfold dict_mem. cbn [forallb fst snd].
  rewrite !Hk by in_list. reflexivity.
Qed.

(* ================================================================== *)
(** ** Insert, then look up *)

(** X16.  Once a record with a named dataset entry is inserted, the enhanced
    check flags it, and keeps flagging it however the collection grows. *)
Theorem inserted_record_is_flagged (o : dict) (c c' x : Mongo.collection) :
  validate study_schema (VDict o) = true ->
  has_named_dataset o = true ->
  Mongo.insert_one (VDict o) c = Ok c' ->
  flagged "2" o (c' ++ x).
Proof.
  intros Hv Hn Hi. apply (flagged_enhanced o _ Hv).
  assert (Hd : exists d, In d c'
                         /\ Mongo.matches (enhanced_query o) d = true).
  { unfold Mongo.insert_one in Hi.
    destruct (dict_get "_id" o) as [i|] eqn:Hid.
    - destruct (existsb (Mongo.has_id i) c); [discriminate|].
      injection Hi as <-.
      exists (Mongo.Doc i (Mongo.without_id o)). split.
      + apply in_or_app. right. now left.
      + apply own_query_matches; auto. intros k Hk.
        now apply dict_get_without_id.
    - injection Hi as <-.
      exists (Mongo.Doc (VObjectId (Mongo.fresh_oid c)) o). split.
      + apply in_or_app. right. now left.
      + apply own_query_matches; auto. }
  destruct Hd as (d & Hin & Hm). exists d. split; auto.
  apply in_or_app. now left.
Qed.

(** X17.  A record with no [dataset] field is never flagged on account of its
    own stored copy: inserting it leaves the verdict of the enhanced
    check on it as it was. *)
Theorem record_without_dataset_misses_own_copy (o : dict)
    (c c' : Mongo.collection) :
  validate study_schema (VDict o) = true ->
  dict_get "dataset" o = None ->
  Mongo.insert_one (VDict o) c = Ok c' ->
  flagged "2" o c' <-> flagged "2" o c.
Proof.
  intros Hv Hds Hi. rewrite !(flagged_enhanced o _ Hv).
  assert (Hnew : exists d, c' = c ++ [d]
                           /\ Mongo.matches (enhanced_query o) d = false).
  { assert (Hno : forall id fields,
               (forall k, k <> "_id" -> dict_get k fields = dict_get k o) ->
               Mongo.matches (enhanced_query o) (Mongo.Doc id fields)
               = false).
    { intros id fields Hf.
      destruct (Mongo.matches (enhanced_query o) (Mongo.Doc id fields))
        eqn:Hm; [| reflexivity].
      apply (matches_enhanced o _ Hv) in Hm. destruct Hm as [_ Hm].
      unfold dataset_names in Hm. rewrite Hds in Hm.
      unfold stored_dataset_names in Hm.
      cbn [Mongo.as_dict Mongo.doc_id Mongo.doc_fields dict_get String.eqb
           Ascii.eqb Bool.eqb] in Hm.
      rewrite Hf, Hds in Hm by discriminate. discriminate Hm. }
    unfold Mongo.insert_one in Hi.
    destruct (dict_get "_id" o) as [i|] eqn:Hid.
    - destruct (existsb (Mongo.has_id i) c); [discriminate|].
      injection Hi as <-. eexists. split; [reflexivity|].
      apply Hno. intros k Hk. now apply dict_get_without_id.
    - injection Hi as <-. eexists. split; [reflexivity|].
      now apply Hno. }
  destruct Hnew as (d & -> & Hd). split.
  - intros (d' & Hin & Hm). apply in_app_or in Hin.
    destruct Hin as [Hin | [<- | []]]; [eauto | congruence].
  - intros (d' & Hin & Hm). exists d'. split; auto.
    apply in_or_app. now left.
Qed.

(** X18.  The same record in two files of one enhanced run: whatever lies
    between them, the second file is not inserted. *)
Theorem same_record_twice_is_inserted_once (root1 root2 : string)
    (f1 f2 : file) (o : dict) (between : list (string * file))
    (st st1 st2 st3 : state Mongo.collection) :
  candidate f1 = Some o -> candidate f2 = Some o ->
  has_named_dataset o = true ->
  process_file (skip_duplicate_check_of "2") root1 f1 st = Ok st1 ->
  process_entries (skip_duplicate_check_of "2") between st1 = (st2, None) ->
  process_file (skip_duplicate_check_of "2") root2 f2 st2 = Ok st3 ->
  collection st3 = collection st2
  /\ count_inserted st3 = count_inserted st2.
Proof.
  change (skip_duplicate_check_of "2") with (VBool false).
  intros Hc1 Hc2 Hn Hp1 Hb Hp2.
  destruct (process_candidate root1 f1 o st Hc1) as (s & Hs & Hset & _ & _).
  rewrite Hp1 in Hs. injection Hs as <-.
  destruct (process_candidate root2 f2 o st2 Hc2)
    as (s & Hs & _ & _ & Hsame).
  rewrite Hp2 in Hs. injection Hs as <-.
  apply Hsame.
  destruct (process_entries_grows (VBool false) between st1) as [y Hy].
  rewrite Hb in Hy. cbn [fst] in Hy. rewrite Hy.
  apply settled_app. now apply Hset.
Qed.

(* ================================================================== *)
(** ** The further properties on concrete inputs *)

Lemma health_report_iff_some_file_unhealthy_witness :
  exists st l,
    check_file_health example_fs None "studies" = HealthDone st (Some l)
    /\ l = problematic_files st
    /\ valid_files st <> total_files st.
Proof.
  pose proof (health_report_iff_some_file_unhealthy example_fs None "studies"
                _ _ eq_refl) as [Hn Hs].
  do 2 eexists. split; [reflexivity|]. split.
  - apply (Hs _ eq_refl).
  - intros E. apply Hn in E. discriminate E.
Defined.

Lemma health_of_object_witness :
  check_one "studies/c.json"
    (json_file "c.json" [("title", VStr "T"); ("doi", VStr "X")])
    initial_health
  = add_problem
      {| issue_file := "studies/c.json";
         issue := "Missing required fields";
         details := MissingFields ["year"; "ml_approaches"] |}
      initial_health.
Proof.
  exact (health_of_object "studies/c.json"
           (json_file "c.json" [("title", VStr "T"); ("doi", VStr "X")])
           [("title", VStr "T"); ("doi", VStr "X")] initial_health
           eq_refl eq_refl).
Defined.

Lemma health_of_scalar_is_type_error_witness :
  check_one "studies/n.json"
    {| filename := "n.json"; open_raises := None;
       load := Decoded (VInt 7) |}
    initial_health
  = add_problem
      {| issue_file := "studies/n.json"; issue := "TypeError";
         details := Message "argument of type 'int' is not iterable" |}
      initial_health.
Proof.
  exact (health_of_scalar_is_type_error "studies/n.json"
           {| filename := "n.json"; open_raises := None;
              load := Decoded (VInt 7) |}
           (VInt 7) initial_health eq_refl eq_refl I).
Defined.

Lemma import_handles_only_healthy_files_witness :
  exists st hst,
    end_state (import_json_studies (C := Mongo.collection)
                 (example_fs "studies") "2" [])
    = Some st
    /\ (exists report,
          check_file_health example_fs None "studies"
          = HealthDone hst report)
    /\ count_inserted st + count_skipped st <= valid_files hst.
Proof.
  pose proof (import_handles_only_healthy_files (C := Mongo.collection)
                example_fs "studies" "2" [] _ _ _ eq_refl eq_refl) as Hle.
  do 2 eexists. split; [reflexivity|]. split; [eexists; reflexivity|].
  exact Hle.
Defined.

Lemma main_raises_iff_import_open_fails_witness :
  main_store_after
    (main (C := Mongo.collection) example_fs "2" "studies" "" [stored_XA])
    [stored_XA]
  = [stored_XA].
Proof.
  apply (proj2 (main_raises_iff_import_open_fails (C := Mongo.collection)
                  example_fs "2" "studies" "" [stored_XA])).
  discriminate.
Defined.

Lemma missing_required_field_is_invalid_witness :
  process_file (C := Mongo.collection) (skip_duplicate_check_of "1")
    "studies"
    (json_file "c.json" [("title", VStr "T"); ("doi", VStr "X")])
    (initial_state [])
  = Ok (add_invalid "studies/c.json" (initial_state [])).
Proof.
  apply (proj2 (missing_required_field_is_invalid (C := Mongo.collection)
                  (skip_duplicate_check_of "1") "studies"
                  (json_file "c.json" [("title", VStr "T"); ("doi", VStr "X")])
                  [("title", VStr "T"); ("doi", VStr "X")] "study_id"
                  (initial_state []) eq_refl eq_refl eq_refl
                  (or_introl eq_refl) eq_refl)).
Defined.

Lemma undeclared_fields_are_not_validated_witness :
  validate study_schema (VDict (study "X" "T" [("dataset", VInt 3)]))
  = validate study_schema (VDict (study "X" "T" [])).
Proof.
  apply (undeclared_fields_are_not_validated
           (study "X" "T" [("dataset", VInt 3)]) (study "X" "T" [])).
  intros k Hin. simpl in Hin.
  repeat (destruct Hin as [Hin | Hin]; [subst k; reflexivity |]).
  contradiction.
Defined.

Lemma inserted_record_is_flagged_witness :
  flagged "2" study_A ([Mongo.Doc (VObjectId 1) study_A] ++ [stored_XA]).
Proof.
  exact (inserted_record_is_flagged study_A []
           [Mongo.Doc (VObjectId 1) study_A] [stored_XA]
           eq_refl eq_refl eq_refl).
Defined.

Lemma record_without_dataset_misses_own_copy_witness :
  ~ flagged "2" (study "X" "T" [])
      [Mongo.Doc (VObjectId 1) (study "X" "T" [])].
Proof.
  intros Hf.
  apply (proj1 (record_without_dataset_misses_own_copy (study "X" "T" [])
                  [] [Mongo.Doc (VObjectId 1) (study "X" "T" [])]
                  eq_refl eq_refl eq_refl)) in Hf.
  apply flagged_enhanced in Hf; [| reflexivity].
  destruct Hf as (d & [] & _).
Defined.

Lemma same_record_twice_is_inserted_once_witness :
  exists st2 st3,
    process_file (C := Mongo.collection) (skip_duplicate_check_of "2")
      "studies/copies" (json_file "again.json" study_A) st2
    = Ok st3
    /\ count_inserted st2 = 2
    /\ collection st3 = collection st2
    /\ count_inserted st3 = count_inserted st2.
Proof.
  pose proof (same_record_twice_is_inserted_once "studies" "studies/copies"
                (json_file "a.json" study_A) (json_file "again.json" study_A)
                study_A
                [("studies", json_file "z.json" (study "Y" "U" []))]
                (initial_state []) _ _ _
                eq_refl eq_refl eq_refl eq_refl eq_refl eq_refl) as Hs.
  match type of Hs with
  | collection ?s3 = collection ?s2 /\ _ => exists s2, s3
  end.
  split; [reflexivity|]. split; [reflexivity | exact Hs].
Defined.

(* ================================================================== *)
(** ** The scan before the import *)

Lemma check_one_keeps (file_path : string) (f : file) (st : health_state)
    (entry : health_issue) :
  In entry (problematic_files st) ->
  In entry (problematic_files (check_one file_path f st)).
Proof.
  intros Hin. unfold check_one.
  destruct (open_raises f); [simpl; apply in_or_app; now left|].
  destruct (load f) as [data | |];
    try (simpl; apply in_or_app; now left).
  destruct (missing_fields_of health_fields data) as [[|m ms]|];
    simpl; auto; apply in_or_app; now left.
Qed.

Lemma check_entries_keeps (es : list (string * file)) (st : health_state)
    (entry : health_issue) :
  In entry (problematic_files st) ->
  In entry (problematic_files (check_entries es st)).
Proof.
  revert st. induction es as [|[root f] es IH]; intros st Hin;
    cbn [check_entries]; [exact Hin|].
  apply IH. destruct (endswith (filename f) ".json"); [| exact Hin].
  now apply check_one_keeps.
Qed.

Lemma check_entries_lists_unopened (es : list (string * file))
    (st : health_state) (rf : string * file) :
  In rf es -> cannot_open rf = true ->
  exists e, open_raises (snd rf) = Some e
            /\ In {| issue_file := entry_path rf; issue := exn_type e;
                     details := Message (exn_message e) |}
                  (problematic_files (check_entries es st)).
Proof.
  revert st. induction es as [|[root f] es IH]; intros st Hin Hc;
    [contradiction|].
  destruct Hin as [<- | Hin]; [| cbn [check_entries]; now apply IH].
  unfold cannot_open, is_json in Hc. cbn [snd] in Hc.
  apply andb_prop in Hc. destruct Hc as [Hj Ho].
  destruct (open_raises f) as [e|] eqn:He; [| discriminate].
  exists e. split; [exact He|].
  cbn [check_entries]. rewrite Hj. apply check_entries_keeps.
  unfold check_one. rewrite He. simpl. apply in_or_app. right. now left.
Qed.

(** X19.  The scan shows what would abandon the import: when a [.json] file of
    the folder cannot be opened, so that [import_json_studies] would end
    in that exception, [check_file_health] over the same folder ends
    normally and lists a file with that exception's class and message. *)
Theorem health_check_lists_what_aborts_import (fs : string -> folder)
    (path : string) (e : exn) :
  folder_first_failure (fs path) = Some e ->
  exists st report entry,
    check_file_health fs None path = HealthDone st report
    /\ In entry (problematic_files st)
    /\ issue entry = exn_type e
    /\ details entry = Message (exn_message e).
Proof.
  unfold folder_first_failure, first_open_failure, check_file_health.
  cbn [health_path].
  destruct (fs path) as [|w]; [discriminate|].
  destruct (find cannot_open (walk_files w)) as [rf|] eqn:Hf;
    [| discriminate].
  intros He. apply find_some in Hf. destruct Hf as [Hin Hc].
  destruct (check_entries_lists_unopened (walk_files w) initial_health rf
              Hin Hc) as (e' & He' & Hl).
  rewrite He in He'. injection He' as <-.
  do 3 eexists. split; [reflexivity|].
  rewrite check_walk_entries. split; [exact Hl|]. split; reflexivity.
Qed.

Lemma health_check_lists_what_aborts_import_witness :
  exists st report entry,
    check_file_health
      (fun _ =>
         Directory
           [("studies",
             [{| filename := "a.json";
                 open_raises :=
                   Some (Exn "PermissionError" "Permission denied");
                 load := Decoded (VDict study_A) |};
              json_file "b.json" study_A])])
      None "studies"
    = HealthDone st report
    /\ In entry (problematic_files st)
    /\ issue entry = "PermissionError"
    /\ details entry = Message "Permission denied".
Proof.
  exact (health_check_lists_what_aborts_import
           (fun _ =>
              Directory
                [("studies",
                  [{| filename := "a.json";
                      open_raises :=
                        Some (Exn "PermissionError" "Permission denied");
                      load := Decoded (VDict study_A) |};
                   json_file "b.json" study_A])])
           "studies" (Exn "PermissionError" "Permission denied") eq_refl).
Defined.
